(** * LegianPythonChallenge: the connection orchestration of [main.py]

    A shallow embedding of [get_device_info] and of the device loop of
    [main], and the properties of the specification checked against it.

    The script talks to the outside (netmiko sessions, the clock, the file
    system, the log).  Every such call is an element of [call]; the outside
    is a [World], a function that answers a call, given the calls made so
    far, with a value or with a raised exception.  A Python computation is a
    function from the world and the history to the calls it makes and its
    outcome. *)

From stdpp Require Import base option list strings gmap.


(** ** Data *)

(** Python exceptions: a [KeyError] raised by a subscript on a dict, or an
    exception raised by an outside call (named by the world). *)
Inductive exn :=
| KeyError (key : string)
| Raised (name : string).

(** The object [ConnectHandler] returns, by identity. *)
Definition handle := nat.

(** The keyword arguments [**connect_params] of [ConnectHandler]. *)
Record connect_params := {
  device_type : string;
  host : string;
  username : string;
  password : string;
}.

Inductive level := DEBUG | INFO.

(** The outside calls of [main.py].  A file object is named by the path it
    was opened on. *)
Inductive call :=
| ConnectHandler (p : connect_params)
| find_prompt (nc : handle)
| write_channel (nc : handle) (s : string)
| sleep (secs : nat)
| read_channel (nc : handle)
| redispatch (nc : handle) (device_type : string)
| send_command (nc : handle) (command : string) (use_textfsm : option bool)
| disconnect (nc : handle)
| logging (lvl : level) (msg : string)
| strftime (fmt : string)
| open_w (filename : string)
| f_write (filename : string) (s : string)
| f_close (filename : string).

Definition reply (c : call) : Type :=
  match c with
  | ConnectHandler _ => handle
  | find_prompt _ | read_channel _ | send_command _ _ _ | strftime _ => string
  | _ => unit
  end.

(** The outside: the answer to call [c] after the calls [h]. *)
Definition World := ∀ c : call, list call → exn + reply c.

(** ** The monad of Python computations *)

(** [m w h] is the list of calls [m] makes, in order, when started after the
    history [h] in world [w], with its outcome: a raised exception or a
    value. *)
Definition M (A : Type) : Type := World → list call → list call * (exn + A).

Definition run {A} (m : M A) (w : World) (h : list call) : list call * (exn + A) :=
  m w h.

#[global] Instance M_ret : MRet M := λ A a _ _, ([], inr a).

#[global] Instance M_bind : MBind M := λ A B k m w h,
  match m w h with
  | (t1, inl e) => (t1, inl e)
  | (t1, inr a) =>
      match k a w (h ++ t1) with
      | (t2, r) => (t1 ++ t2, r)
      end
  end.

#[global] Instance M_throw : MThrow exn M := λ A e _ _, ([], inl e).

(** An outside call: recorded, and answered by the world. *)
Definition perform (c : call) : M (reply c) := λ w h, ([c], w c h).

(** [logging.debug] and [logging.info]: recorded; the logging module does
    not raise into its caller. *)
Definition log (lvl : level) (msg : string) : M unit :=
  λ _ _, ([logging lvl msg], inr tt).

(** [d[k]] on a dict. *)
Definition getitem {V} (d : gmap string V) (k : string) : M V :=
  match d !! k with
  | Some v => mret v
  | None => mthrow (KeyError k)
  end.

Notation "d .[ k ]" := (getitem d k) (at level 1, format "d .[ k ]").

(** [for x in l: body(x)] *)
Fixpoint for_each {A B} (l : list A) (body : A → M B) : M unit :=
  match l with
  | [] => mret tt
  | x :: l' => body x ;; for_each l' body
  end.

(** [for x in l: output.append(body(x))], started with the list [output]. *)
Fixpoint for_append {A B} (l : list A) (output : list B) (body : A → M B)
  : M (list B) :=
  match l with
  | [] => mret output
  | x :: l' => o ← body x; for_append l' (output ++ [o]) body
  end.

(** [try: body finally: fin]: [fin] runs on both exits; an exception of
    [fin] replaces the outcome of [body]. *)
Definition try_finally {A} (body : M A) (fin : M unit) : M A := λ w h,
  match body w h with
  | (t1, r) =>
      match fin w (h ++ t1) with
      | (t2, inl e) => (t1 ++ t2, inl e)
      | (t2, inr _) => (t1 ++ t2, r)
      end
  end.

(** [with open(filename, 'w') as f: body(f)] *)
Definition with_open_w {A} (filename : string) (body : string → M A) : M A :=
  perform (open_w filename) ;;
  try_finally (body filename) (perform (f_close filename)).

(** ** The program *)

(** The newline of the f-strings. *)
Definition nl : string := String (Ascii.ascii_of_nat 10) EmptyString.

(** Truth value of a [str]. *)
Definition truthy (s : string) : bool :=
  match s with EmptyString => false | _ => true end.

(** [x in s] on [str]: [x] occurs in [s] as a substring. *)
Fixpoint str_in (x s : string) : bool :=
  String.prefix x s ||
  match s with
  | EmptyString => false
  | String _ s' => str_in x s'
  end.

(** [any(x in output for x in l)] *)
Definition any_in (l : list string) (output : string) : bool :=
  existsb (λ x, str_in x output) l.

Abbreviation dict := (gmap string string).
Abbreviation type_params := (gmap string (list string)).

Section get_device_info.
Context (device : dict) (device_type_params : type_params)
        (jumphost_params : dict) (device_connect_credentials : dict).

(** Lines 43-61: the branch taken when [jumphost_params['host']] is
    true. *)
Definition connect_via_jumphost : M handle :=
  log DEBUG "Jumphost parameters are filled so use jumphost to connect to device" ;;
  jh_type ← jumphost_params.["device_type"];
  jh_host ← jumphost_params.["host"];
  jh_user ← jumphost_params.["username"];
  jh_pass ← jumphost_params.["password"];
  net_connect ← perform (ConnectHandler
    {| device_type := jh_type; host := jh_host;
       username := jh_user; password := jh_pass |});
  perform (find_prompt net_connect) ;;
  jh_host ← jumphost_params.["host"];
  dev_host ← device.["host"];
  log INFO ("Connected to jumphost " +:+ jh_host +:+ " for device " +:+ dev_host) ;;
  user ← device_connect_credentials.["username"];
  dev_host ← device.["host"];
  perform (write_channel net_connect ("ssh " +:+ user +:+ "@" +:+ dev_host +:+ nl)) ;;
  perform (sleep 1) ;;
  output ← perform (read_channel net_connect);
  (if any_in ["password"; "Password"] output then
     dev_host ← device.["host"];
     log INFO ("Connecting to device and found password prompt for " +:+ dev_host) ;;
     pass ← device_connect_credentials.["password"];
     perform (write_channel net_connect (pass +:+ nl))
   else mret tt) ;;
  perform (find_prompt net_connect) ;;
  dev_type ← device.["type"];
  perform (redispatch net_connect dev_type) ;;
  dev_host ← device.["host"];
  log INFO ("Connected and redispatched to device  " +:+ dev_host) ;;
  mret net_connect.

(** Lines 64-73: the [else] branch. *)
Definition connect_directly : M handle :=
  dev_type ← device.["type"];
  dev_host ← device.["host"];
  user ← device_connect_credentials.["username"];
  pass ← device_connect_credentials.["password"];
  net_connect ← perform (ConnectHandler
    {| device_type := dev_type; host := dev_host;
       username := user; password := pass |});
  perform (find_prompt net_connect) ;;
  dev_host ← device.["host"];
  log INFO ("Connected to device  " +:+ dev_host) ;;
  mret net_connect.

(** Lines 75-86: the commands, on the session [net_connect]. *)
Definition run_commands (net_connect : handle) : M (list string) :=
  initial_commands ← device_type_params.["initial_commands"];
  for_each initial_commands
    (λ command, perform (send_command net_connect command None)) ;;
  show_commands ← device_type_params.["show_commands"];
  output ← for_append show_commands []
    (λ command, perform (send_command net_connect command (Some false)));
  perform (disconnect net_connect) ;;
  dev_host ← device.["host"];
  log INFO ("Disconnected from " +:+ dev_host) ;;
  mret output.

Definition get_device_info : M (list string) :=
  jh_host ← jumphost_params.["host"];
  net_connect ← (if truthy jh_host then connect_via_jumphost
                 else connect_directly);
  run_commands net_connect.
End get_device_info.

(** Lines 117-127 of [main]: the loop over the inventory.  The values read
    from the configuration files at lines 90-114 are the arguments. *)
Section main.
Context (devices : list dict) (device_type_parameters : gmap string type_params)
        (jumphost_params : dict) (device_connect_credentials : dict).

Definition main_body (device : dict) : M unit :=
  dev_type ← device.["type"];
  device_type_params ← device_type_parameters.[dev_type];
  current_time ← perform (strftime "%Y-%m-%d_%H%M%S");
  hostname ← device.["hostname"];
  with_open_w (hostname +:+ "_" +:+ current_time +:+ ".txt") (λ f,
    show_command_outputs ←
      get_device_info device device_type_params jumphost_params
                      device_connect_credentials;
    for_each show_command_outputs (λ output, perform (f_write f output))).

Definition main : M unit := for_each devices main_body.
End main.

(** ** The file system the file calls act on *)

(** [open(_, 'w')] creates the file or truncates it, [write] appends; a call
    the world answers with an exception changes nothing.  The text of a
    [write] is counted as in the file at once; a file object buffers it
    until it is closed, which [file_step] below keeps apart. *)
Definition disk_step (w : World) (h : list call) (d : gmap string string)
    (c : call) : gmap string string :=
  match c with
  | open_w fn =>
      match w (open_w fn) h with inr _ => <[fn := EmptyString]> d | inl _ => d end
  | f_write fn s =>
      match w (f_write fn s) h with
      | inr _ => alter (λ old, old +:+ s) fn d
      | inl _ => d
      end
  | _ => d
  end.

(** The disk after the calls [t], made after the history [h]. *)
Fixpoint disk_after (w : World) (h : list call) (d : gmap string string)
    (t : list call) : gmap string string :=
  match t with
  | [] => d
  | c :: t' => disk_after w (h ++ [c]) (disk_step w h d c) t'
  end.

(** ** Observations on a list of calls *)

Definition is_connect (c : call) : bool :=
  match c with ConnectHandler _ => true | _ => false end.
Definition is_read (c : call) : bool :=
  match c with read_channel _ => true | _ => false end.
Definition is_write (c : call) : bool :=
  match c with write_channel _ _ => true | _ => false end.
Definition is_redispatch (c : call) : bool :=
  match c with redispatch _ _ => true | _ => false end.
Definition is_send_command (c : call) : bool :=
  match c with send_command _ _ _ => true | _ => false end.
Definition is_disconnect (c : call) : bool :=
  match c with disconnect _ => true | _ => false end.
Definition is_logging (c : call) : bool :=
  match c with logging _ _ => true | _ => false end.
Definition is_file (c : call) : bool :=
  match c with open_w _ | f_write _ _ | f_close _ => true | _ => false end.

(** The sessions opened: the arguments of the [ConnectHandler] calls. *)
Definition connects (t : list call) : list connect_params :=
  omap (λ c, match c with ConnectHandler p => Some p | _ => None end) t.

(** The raw texts written with [write_channel]. *)
Definition writes (t : list call) : list string :=
  omap (λ c, match c with write_channel _ s => Some s | _ => None end) t.

(** How many calls of [t] satisfy [p]. *)
Definition count (p : call → bool) (t : list call) : nat :=
  length (filter (λ c, p c = true) t).

(** ** Reasoning rules *)

Section rules.
Context (w : World).

Lemma run_ret {A} (a : A) h : run (mret a) w h = ([], inr a).
Proof. reflexivity. Qed.

Lemma run_bind {A B} (m : M A) (k : A → M B) h :
  run (m ≫= k) w h =
    match run m w h with
    | (t1, inl e) => (t1, inl e)
    | (t1, inr a) => ((t1 ++ (run (k a) w (h ++ t1)).1), (run (k a) w (h ++ t1)).2)
    end.
Proof.
  unfold run, mbind, M_bind. destruct (m w h) as [t1 [e|a]]; [done|].
  by destruct (k a w (h ++ t1)).
Qed.

(** [wp m h Q]: the calls and the outcome of [m], started after [h],
    satisfy [Q]. *)
Definition wp {A} (m : M A) (h : list call)
    (Q : list call → exn + A → Prop) : Prop :=
  Q (run m w h).1 (run m w h).2.

Lemma wp_run {A} (m : M A) h Q : wp m h Q ↔ Q (run m w h).1 (run m w h).2.
Proof. done. Qed.

Lemma wp_mono {A} (m : M A) h (Q Q' : list call → exn + A → Prop) :
  wp m h Q → (∀ t r, Q t r → Q' t r) → wp m h Q'.
Proof. unfold wp. auto. Qed.

Lemma wp_ret {A} (a : A) h Q : Q [] (inr a) → wp (mret a) h Q.
Proof. done. Qed.

Lemma wp_bind {A B} (m : M A) (k : A → M B) h Q :
  wp m h (λ t1 r1,
    match r1 with
    | inl e => Q t1 (inl e)
    | inr a => wp (k a) (h ++ t1) (λ t2 r2, Q (t1 ++ t2) r2)
    end) →
  wp (m ≫= k) h Q.
Proof.
  unfold wp. rewrite run_bind. by destruct (run m w h) as [t1 [e|a]].
Qed.

Lemma wp_assoc {A B C} (m : M A) (f : A → M B) (g : B → M C) h Q :
  wp (m ≫= λ a, f a ≫= g) h Q → wp ((m ≫= f) ≫= g) h Q.
Proof.
  unfold wp. rewrite !run_bind.
  destruct (run m w h) as [t1 [e|a]]; simpl; [done|].
  rewrite run_bind.
  destruct (run (f a) w (h ++ t1)) as [t2 [e|b]]; simpl; [done|].
  by rewrite !app_assoc.
Qed.

Lemma wp_bind_ret {A B} (a : A) (k : A → M B) h Q :
  wp (k a) h Q → wp (mret a ≫= k) h Q.
Proof. intros H. apply wp_bind, wp_ret. simpl. by rewrite app_nil_r. Qed.

Lemma wp_bind_perform {B} c (k : reply c → M B) h Q :
  (∀ e, w c h = inl e → Q [c] (inl e)) →
  (∀ a, w c h = inr a → wp (k a) (h ++ [c]) (λ t r, Q (c :: t) r)) →
  wp (perform c ≫= k) h Q.
Proof.
  intros He Ha. apply wp_bind. unfold wp at 1, run at 1 2, perform. simpl.
  destruct (w c h) as [e|a]; auto.
Qed.

Lemma wp_perform c h (Q : list call → exn + reply c → Prop) :
  Q [c] (w c h) → wp (perform c) h Q.
Proof. done. Qed.

Lemma wp_bind_log {B} lvl msg (k : unit → M B) h Q :
  wp (k tt) (h ++ [logging lvl msg]) (λ t r, Q (logging lvl msg :: t) r) →
  wp (log lvl msg ≫= k) h Q.
Proof. intros H. by apply wp_bind. Qed.

Lemma wp_bind_getitem {V B} (d : gmap string V) key (k : V → M B) h Q :
  (d !! key = None → Q [] (inl (KeyError key))) →
  (∀ v, d !! key = Some v → wp (k v) h Q) →
  wp (d.[key] ≫= k) h Q.
Proof.
  intros Hn Hs. apply wp_bind. unfold getitem.
  destruct (d !! key) as [v|]; simpl.
  - apply wp_ret. simpl. rewrite app_nil_r. by apply Hs.
  - by apply Hn.
Qed.
End rules.

Arguments wp : simpl never.
Arguments run : simpl never.

(** One step of a program text: the rule of its first statement. *)
Ltac wp_step :=
  lazymatch goal with
  | |- wp _ (mret _) _ _ => apply wp_ret
  | |- wp ?w (mbind ?k (perform ?c)) ?h ?Q =>
      apply (wp_bind_perform w c k h Q); [intros ? ?|intros ? ?]
  | |- wp _ (mbind _ (log _ _)) _ _ => apply wp_bind_log
  | |- wp _ (mbind _ (getitem _ _)) _ _ =>
      apply wp_bind_getitem; [intros ?|intros ? ?]; simplify_eq
  | |- wp _ (mbind _ (mret _)) _ _ => apply wp_bind_ret
  | |- wp _ (mbind _ (mbind _ _)) _ _ => apply wp_assoc
  | |- wp _ (mbind _ (if ?b then _ else _)) _ _ => destruct b eqn:?
  end; cbv beta.

(** ** Invariants of computations *)

(** [free p m]: [m] makes no call that satisfies [p]. *)
Definition free {A} (p : call → bool) (m : M A) : Prop :=
  ∀ w h, Forall (λ c, p c = false) (run m w h).1.

(** [fail_stop m]: a call of [m] the world answers with an exception is the
    last call of [m], and its exception is the outcome of [m]. *)
Definition fail_stop {A} (m : M A) : Prop :=
  ∀ w h pre c post e,
    (run m w h).1 = pre ++ c :: post → is_logging c = false →
    w c (h ++ pre) = inl e →
    post = [] ∧ (run m w h).2 = inl e.

Section invariants.
Context (p : call → bool).

Lemma free_ret {A} (a : A) : free p (mret a).
Proof. intros w h. constructor. Qed.

Lemma free_bind {A B} (m : M A) (k : A → M B) :
  free p m → (∀ a, free p (k a)) → free p (m ≫= k).
Proof.
  intros Hm Hk w h. rewrite run_bind. specialize (Hm w h).
  destruct (run m w h) as [t1 [e|a]]; simpl in *; [done|].
  apply Forall_app. split; [done | apply Hk].
Qed.

Lemma free_perform c : p c = false → free p (perform c).
Proof. intros Hc w h. by constructor. Qed.

Lemma free_log lvl msg : p (logging lvl msg) = false → free p (log lvl msg).
Proof. intros Hc w h. by constructor. Qed.

Lemma free_getitem {V} (d : gmap string V) key : free p (d.[key]).
Proof. intros w h. unfold getitem. destruct (d !! key); constructor. Qed.

Lemma free_if {A} (b : bool) (m1 m2 : M A) :
  free p m1 → free p m2 → free p (if b then m1 else m2).
Proof. by destruct b. Qed.

Lemma free_for_each {A B} (l : list A) (body : A → M B) :
  (∀ x, free p (body x)) → free p (for_each l body).
Proof.
  intros Hb. induction l as [|x l IH]; simpl.
  - apply free_ret.
  - apply free_bind; auto.
Qed.

Lemma free_for_append {A B} (l : list A) (acc : list B) (body : A → M B) :
  (∀ x, free p (body x)) → free p (for_append l acc body).
Proof.
  intros Hb. revert acc. induction l as [|x l IH]; intros acc; simpl.
  - apply free_ret.
  - apply free_bind; auto.
Qed.
End invariants.

Lemma fail_stop_ret {A} (a : A) : fail_stop (mret a).
Proof. intros w h pre c post e Ht. by destruct pre. Qed.

Lemma fail_stop_perform c : fail_stop (perform c).
Proof.
  intros w h pre c' post e Ht _ Hw. unfold run, perform in *. simpl in *.
  destruct pre as [|c1 pre]; simplify_eq/=.
  - by rewrite app_nil_r in Hw.
  - by destruct pre.
Qed.

Lemma fail_stop_log lvl msg : fail_stop (log lvl msg).
Proof.
  intros w h pre c post e Ht Hl _. unfold run, log in *. simpl in *.
  destruct pre as [|c1 pre]; simplify_eq/=. by destruct pre.
Qed.

Lemma fail_stop_getitem {V} (d : gmap string V) key : fail_stop (d.[key]).
Proof.
  intros w h pre c post e Ht. unfold getitem in Ht.
  destruct (d !! key); by destruct pre.
Qed.

Lemma fail_stop_bind {A B} (m : M A) (k : A → M B) :
  fail_stop m → (∀ a, fail_stop (k a)) → fail_stop (m ≫= k).
Proof.
  intros Hm Hk w h pre c post e. rewrite run_bind.
  specialize (Hm w h). destruct (run m w h) as [t1 [e1|a]]; simpl in *.
  { intros Ht Hl Hw. destruct (Hm pre c post e) as [-> ?]; [done..|].
    split; [done | congruence]. }
  intros Ht Hl Hw. apply app_eq_inv in Ht as [(l & -> & Hl2)|(l & -> & Hl2)].
  - destruct l as [|c1 l]; simplify_eq/=.
    + rewrite app_nil_r in *.
      apply (Hk a w (h ++ pre) [] c post e); simpl; [done..|].
      by rewrite app_nil_r.
    + by destruct (Hm pre c1 l e).
  - apply (Hk a w (h ++ t1) l c post e); [done..|]. by rewrite <-app_assoc.
Qed.

Lemma fail_stop_if {A} (b : bool) (m1 m2 : M A) :
  fail_stop m1 → fail_stop m2 → fail_stop (if b then m1 else m2).
Proof. by destruct b. Qed.

Lemma fail_stop_for_each {A B} (l : list A) (body : A → M B) :
  (∀ x, fail_stop (body x)) → fail_stop (for_each l body).
Proof.
  intros Hb. induction l as [|x l IH]; simpl.
  - apply fail_stop_ret.
  - apply fail_stop_bind; auto.
Qed.

Lemma fail_stop_for_append {A B} (l : list A) (acc : list B) (body : A → M B) :
  (∀ x, fail_stop (body x)) → fail_stop (for_append l acc body).
Proof.
  intros Hb. revert acc. induction l as [|x l IH]; intros acc; simpl.
  - apply fail_stop_ret.
  - apply fail_stop_bind; auto.
Qed.

(** The invariants of a program text, rule by rule. *)
Ltac invariant :=
  repeat first
    [ progress intros
    | apply free_bind | apply free_ret | apply free_getitem
    | apply free_if | apply free_for_each | apply free_for_append
    | apply free_perform; reflexivity | apply free_log; reflexivity
    | apply fail_stop_bind | apply fail_stop_ret | apply fail_stop_getitem
    | apply fail_stop_if | apply fail_stop_for_each
    | apply fail_stop_for_append | apply fail_stop_perform
    | apply fail_stop_log ].

Lemma run_commands_free p device dtp nc :
  (∀ c o, p (send_command nc c o) = false) → p (disconnect nc) = false →
  (∀ lvl msg, p (logging lvl msg) = false) →
  free p (run_commands device dtp nc).
Proof.
  intros Hs Hd Hl. unfold run_commands.
  repeat first
    [ progress intros | apply free_bind | apply free_ret | apply free_getitem
    | apply free_for_each | apply free_for_append
    | apply free_perform; auto | apply free_log; auto ].
Qed.

Lemma get_device_info_fail_stop device dtp jh cr :
  fail_stop (get_device_info device dtp jh cr).
Proof.
  unfold get_device_info, connect_via_jumphost, connect_directly, run_commands.
  invariant.
Qed.

Lemma get_device_info_no_file device dtp jh cr :
  free is_file (get_device_info device dtp jh cr).
Proof.
  unfold get_device_info, connect_via_jumphost, connect_directly, run_commands.
  invariant.
Qed.

(** ** The command loops *)

(** The calls [send_command(c)] for the commands [l], in order. *)
Definition sends (nc : handle) (o : option bool) (l : list string) : list call :=
  map (λ c, send_command nc c o) l.

Lemma sends_all_send nc o l :
  Forall (λ c, is_send_command c = true) (sends nc o l).
Proof. induction l; by constructor. Qed.

Lemma sends_app nc o l1 l2 : sends nc o (l1 ++ l2) = sends nc o l1 ++ sends nc o l2.
Proof. apply map_app. Qed.

(** The outcome of a loop that raised: the last call is a [send_command]
    the world answered with the exception. *)
Definition stopped_at_send (w : World) (h t : list call) (e : exn) : Prop :=
  ∃ pre c, t = pre ++ [c] ∧ Forall (λ c, is_send_command c = true) pre ∧
           is_send_command c = true ∧ w c (h ++ pre) = inl e.

Lemma stopped_at_send_cons w h c t e :
  is_send_command c = true →
  stopped_at_send w (h ++ [c]) t e → stopped_at_send w h (c :: t) e.
Proof.
  intros Hc (pre & c' & -> & Hpre & Hc' & Hw).
  exists (c :: pre), c'. rewrite <-app_assoc in Hw. by repeat split; [constructor|..].
Qed.

Lemma wp_for_each_send w nc o l h :
  wp w (for_each l (λ command, perform (send_command nc command o))) h
    (λ t r, match r with
            | inr _ => t = sends nc o l
            | inl e => stopped_at_send w h t e
            end).
Proof.
  revert h. induction l as [|x l IH]; intros h; simpl.
  { by apply wp_ret. }
  wp_step.
  - exists [], (send_command nc x o). by rewrite app_nil_r.
  - eapply wp_mono; [apply IH|]. intros t [e|[]]; simpl.
    + by apply stopped_at_send_cons.
    + by intros ->.
Qed.

(** The entries [outs] are the answers of the world to the commands [l],
    each at the moment it was sent. *)
Definition answers_of (w : World) (h : list call) (nc : handle)
    (o : option bool) (l outs : list string) : Prop :=
  length outs = length l ∧
  ∀ i cmd, l !! i = Some cmd →
    ∃ x, outs !! i = Some x ∧
         w (send_command nc cmd o) (h ++ sends nc o (take i l)) = inr x.

Lemma wp_for_append_send w nc o l acc h :
  wp w (for_append l acc (λ command, perform (send_command nc command o))) h
    (λ t r, match r with
            | inr out => t = sends nc o l ∧
                         ∃ outs, out = acc ++ outs ∧ answers_of w h nc o l outs
            | inl e => stopped_at_send w h t e
            end).
Proof.
  revert acc h. induction l as [|x l IH]; intros acc h; simpl.
  { apply wp_ret. split; [done|]. exists []. rewrite app_nil_r.
    repeat split. by intros i cmd. }
  wp_step.
  - exists [], (send_command nc x o). by rewrite app_nil_r.
  - eapply wp_mono; [apply IH|]. intros t [e|out]; simpl.
    + by apply stopped_at_send_cons.
    + intros (-> & outs & -> & Hlen & Hans). split; [done|].
      exists (a :: outs). rewrite <-app_assoc. split; [done|].
      split; [simpl; by rewrite Hlen|].
      intros [|i] cmd Hi; simplify_eq/=.
      * eexists. by rewrite app_nil_r.
      * destruct (Hans i cmd Hi) as (y & ? & Hy). exists y.
        by rewrite <-app_assoc in Hy.
Qed.

(** The commands of a device session, lines 75-86, once [device['host']]
    is known to be there. *)
Lemma wp_run_commands w device dtp nc h dh :
  device !! "host" = Some dh →
  wp w (run_commands device dtp nc) h
    (λ t r,
       match r with
       | inr out =>
           ∃ ic sc,
             dtp !! "initial_commands" = Some ic ∧
             dtp !! "show_commands" = Some sc ∧
             t = sends nc None ic ++ sends nc (Some false) sc ++
                 [disconnect nc; logging INFO ("Disconnected from " +:+ dh)] ∧
             answers_of w (h ++ sends nc None ic) nc (Some false) sc out
       | inl e =>
           (∃ k, e = KeyError k ∧ Forall (λ c, is_send_command c = true) t) ∨
           stopped_at_send w h t e ∨
           (∃ pre, t = pre ++ [disconnect nc] ∧
                   Forall (λ c, is_send_command c = true) pre ∧
                   w (disconnect nc) (h ++ pre) = inl e)
       end).
Proof.
  intros Hdh. unfold run_commands.
  apply wp_bind_getitem; [intros _; left; eauto|]. intros ic Hic.
  apply wp_bind. eapply wp_mono; [apply wp_for_each_send|].
  intros t1 [e|[]]; simpl; [by auto|]. intros ->.
  apply wp_bind_getitem.
  { intros _. left. rewrite app_nil_r. eauto using sends_all_send. }
  intros sc Hsc. apply wp_bind. eapply wp_mono; [apply wp_for_append_send|].
  intros t2 [e|out]; simpl.
  { intros (pre & c & -> & Hpre & Hc & Hw). right. left.
    exists (sends nc None ic ++ pre), c. rewrite <-!app_assoc in *.
    repeat split; [|done..]. apply Forall_app. eauto using sends_all_send. }
  intros (-> & outs & -> & Hans). simpl in *.
  wp_step.
  - right. right.
    exists (sends nc None ic ++ sends nc (Some false) sc).
    rewrite <-!app_assoc in *. repeat split; [|done].
    apply Forall_app. eauto using sends_all_send.
  - wp_step. wp_step. wp_step. by exists ic, sc.
Qed.

(** ** Lists of calls *)

Lemma wp_free {A} w (m : M A) h p :
  free p m → wp w m h (λ t _, Forall (λ c, p c = false) t).
Proof. intros Hm. apply Hm. Qed.

Lemma connects_free t : Forall (λ c, is_connect c = false) t → connects t = [].
Proof. induction 1 as [|[] t Hc _ IH]; simplify_eq/=; done. Qed.

Lemma writes_free t : Forall (λ c, is_write c = false) t → writes t = [].
Proof. induction 1 as [|[] t Hc _ IH]; simplify_eq/=; done. Qed.

Lemma connects_cons c t :
  connects (c :: t) =
    match c with ConnectHandler p => p :: connects t | _ => connects t end.
Proof. by destruct c. Qed.

Lemma writes_cons c t :
  writes (c :: t) =
    match c with write_channel _ s => s :: writes t | _ => writes t end.
Proof. by destruct c. Qed.

Lemma count_free p t : Forall (λ c, p c = false) t → count p t = 0.
Proof.
  unfold count. induction 1 as [|c t Hc _ IH]; [done|].
  rewrite filter_cons. by destruct (decide (p c = true)); [congruence|].
Qed.

Lemma count_cons p c t :
  count p (c :: t) = (if p c then 1 else 0) + count p t.
Proof.
  unfold count. rewrite filter_cons.
  destruct (p c) eqn:Hc; by destruct (decide _).
Qed.

Lemma count_app p t1 t2 : count p (t1 ++ t2) = count p t1 + count p t2.
Proof. unfold count. by rewrite filter_app, length_app. Qed.

(** A list with one call that satisfies [p] splits around it in one way. *)
Lemma split_unique (p : call → bool) l1 x l2 pre y post :
  l1 ++ x :: l2 = pre ++ y :: post →
  Forall (λ c, p c = false) l1 → Forall (λ c, p c = false) l2 →
  p y = true →
  pre = l1 ∧ y = x ∧ post = l2.
Proof.
  revert pre. induction l1 as [|a l1 IH]; intros pre Heq H1 H2 Hy.
  - destruct pre as [|b pre]; simplify_eq/=; [done|].
    apply Forall_app in H2 as [_ H2]. inversion H2; congruence.
  - inversion H1; subst. destruct pre as [|b pre]; simplify_eq/=; [congruence|].
    destruct (IH pre) as (-> & -> & ->); done.
Qed.

Lemma no_split (p : call → bool) t pre y post :
  t = pre ++ y :: post → Forall (λ c, p c = false) t → p y = true → False.
Proof.
  intros -> H Hy. apply Forall_app in H as [_ H]. inversion H; congruence.
Qed.

(** ** A laboratory: concrete inventories and worlds *)

Module Lab.
(** A device of the inventory, its type parameters and the credentials. *)
Definition device : dict :=
  <["hostname" := "r1"]> (<["host" := "10.0.0.1"]> (<["type" := "cisco_ios"]> ∅)).
Definition device2 : dict :=
  <["hostname" := "r2"]> (<["host" := "10.0.0.2"]> (<["type" := "cisco_ios"]> ∅)).
Definition cisco_ios : type_params :=
  <["initial_commands" := ["terminal length 0"]]>
    (<["show_commands" := ["show version"; "show inventory"]]> ∅).
Definition device_type_parameters : gmap string type_params :=
  <["cisco_ios" := cisco_ios]> ∅.
Definition credentials : dict :=
  <["username" := "admin"]> (<["password" := "secret"]> ∅).

(** [script_parameters.conf] with and without a jump host. *)
Definition no_jumphost : dict :=
  <["device_type" := "linux"]> (<["host" := EmptyString]>
    (<["username" := "jump"]> (<["password" := "hop"]> ∅))).
Definition jumphost : dict := <["host" := "192.0.2.1"]> no_jumphost.

(** A world where everything works; the channel shows [banner] when it is
    read. *)
Definition world (banner : string) : World := λ c _,
  match c with
  | ConnectHandler _ => inr 7
  | find_prompt _ => inr "r1#"
  | read_channel _ => inr banner
  | send_command _ command _ => inr ("<" +:+ command +:+ ">")
  | strftime _ => inr "2022-05-01_120000"
  | _ => inr tt
  end.

Definition timeout : exn := Raised "NetmikoTimeoutException".

(** The same world, except that the calls [bad] raise [timeout]. *)
Definition failing (bad : call → bool) (banner : string) : World := λ c h,
  if bad c then inl timeout else world banner c h.
End Lab.

Lemma lab_world_answers banner c hh : ∃ a, Lab.world banner c hh = inr a.
Proof. destruct c; by eexists. Qed.

(** ** The session that is opened *)

Ltac wp_steps := repeat wp_step.

(** A goal about the calls and the outcome of a run, as a [wp]. *)
Ltac wp_of_run Q :=
  lazymatch goal with
  | |- context [run ?m ?w ?h] => change (wp w m h Q)
  end.

(** The commands of lines 75-86 open no session. *)
Lemma wp_run_commands_no_connect w device dtp nc h :
  wp w (run_commands device dtp nc) h (λ t _, connects t = []).
Proof.
  eapply wp_mono; [by apply wp_free, (run_commands_free is_connect)|].
  intros t r Ht. by apply connects_free.
Qed.

(** C1: the sessions opened by [get_device_info].  With an empty
    [jumphost_params['host']] the one [ConnectHandler] call has the type and
    host of the device and the device credentials; with a non-empty one the
    one [ConnectHandler] call has the device type, host, username and
    password of the jump host, so no session is opened to the device host. *)
Theorem C1_one_session_opened device dtp jh cr w h jhh :
  jh !! "host" = Some jhh →
  let t := (run (get_device_info device dtp jh cr) w h).1 in
  (jhh = EmptyString →
   ∀ ty dh u p,
     device !! "type" = Some ty → device !! "host" = Some dh →
     cr !! "username" = Some u → cr !! "password" = Some p →
     connects t =
       [{| device_type := ty; host := dh; username := u; password := p |}]) ∧
  (jhh ≠ EmptyString →
   ∀ jt ju jp,
     jh !! "device_type" = Some jt → jh !! "username" = Some ju →
     jh !! "password" = Some jp →
     connects t =
       [{| device_type := jt; host := jhh; username := ju; password := jp |}]).
Proof.
  intros Hjh t. subst t. split.
  - intros -> ty dh u p Hty Hdh Hu Hp.
    wp_of_run (λ (t : list call) (_ : exn + list string), connects t =
      [{| device_type := ty; host := dh; username := u; password := p |}]).
    unfold get_device_info. wp_step. simpl. unfold connect_directly.
    wp_steps; try done.
    eapply wp_mono; [apply wp_run_commands_no_connect|].
    intros t r Ht. rewrite !connects_cons. by rewrite Ht.
  - intros Hne jt ju jp Hjt Hju Hjp.
    wp_of_run (λ (t : list call) (_ : exn + list string), connects t =
      [{| device_type := jt; host := jhh; username := ju; password := jp |}]).
    unfold get_device_info. wp_step.
    replace (truthy jhh) with true by (by destruct jhh).
    unfold connect_via_jumphost.
    wp_steps; try done;
      (eapply wp_mono; [apply wp_run_commands_no_connect|];
       intros t r Ht; rewrite !connects_cons; by rewrite Ht).
Qed.

Lemma C1_one_session_opened_witness :
  connects (run (get_device_info Lab.device Lab.cisco_ios Lab.no_jumphost
                   Lab.credentials) (Lab.world EmptyString) []).1 =
    [{| device_type := "cisco_ios"; host := "10.0.0.1";
        username := "admin"; password := "secret" |}] ∧
  connects (run (get_device_info Lab.device Lab.cisco_ios Lab.jumphost
                   Lab.credentials) (Lab.world EmptyString) []).1 =
    [{| device_type := "linux"; host := "192.0.2.1";
        username := "jump"; password := "hop" |}].
Proof.
  split.
  - apply (C1_one_session_opened Lab.device Lab.cisco_ios Lab.no_jumphost
             Lab.credentials (Lab.world EmptyString) [] EmptyString);
      vm_compute; reflexivity.
  - apply (C1_one_session_opened Lab.device Lab.cisco_ios Lab.jumphost
             Lab.credentials (Lab.world EmptyString) [] "192.0.2.1");
      [vm_compute; reflexivity | discriminate | vm_compute; reflexivity..].
Defined.

(** ** The relayed connection, call by call *)

(** The calls before and after the first call of [t] that satisfies [p]. *)
Fixpoint before (p : call → bool) (t : list call) : list call :=
  match t with
  | [] => []
  | c :: t' => if p c then [] else c :: before p t'
  end.

Fixpoint after (p : call → bool) (t : list call) : list call :=
  match t with
  | [] => []
  | c :: t' => if p c then t' else after p t'
  end.

Section relay.
Context (p : connect_params) (nc : handle)
        (jhh dh user pw ty : string) (output : string).

(** Lines 43-58 when they run to the end on the session [nc] and the
    channel shows [output]: the session to the jump host, the [ssh]
    command typed into its shell and the answer to a password prompt. *)
Definition negotiation : list call :=
  [ logging DEBUG "Jumphost parameters are filled so use jumphost to connect to device";
    ConnectHandler p;
    find_prompt nc;
    logging INFO ("Connected to jumphost " +:+ jhh +:+ " for device " +:+ dh);
    write_channel nc ("ssh " +:+ user +:+ "@" +:+ dh +:+ nl);
    sleep 1;
    read_channel nc ] ++
  (if any_in ["password"; "Password"] output then
     [ logging INFO ("Connecting to device and found password prompt for " +:+ dh);
       write_channel nc (pw +:+ nl) ]
   else []).

(** Lines 43-61. *)
Definition relay_calls : list call :=
  negotiation ++
  [ find_prompt nc; redispatch nc ty;
    logging INFO ("Connected and redispatched to device  " +:+ dh) ].
End relay.

(** The run stopped in [calls] at the call number [n], which the world
    answered with [e]. *)
Definition stopped_in (w : World) (h calls t : list call) (e : exn) : Prop :=
  ∃ n c, calls !! n = Some c ∧ t = take (S n) calls ∧
         is_logging c = false ∧ w c (h ++ take n calls) = inl e.

(** The histories of the rules, flattened. *)
Ltac flatten_histories :=
  repeat match goal with
         | H : context [(_ ++ _) ++ _] |- _ => rewrite <-app_assoc in H
         end.

Ltac stopped_at n :=
  exists n; eexists;
  split; [reflexivity|]; split; [reflexivity|]; split; [reflexivity|];
  eassumption.

Ltac stopped_somewhere :=
  first [ stopped_at 1 | stopped_at 2 | stopped_at 4 | stopped_at 5
        | stopped_at 6 | stopped_at 7 | stopped_at 8 | stopped_at 9
        | stopped_at 10 ].

Ltac relay_session :=
  lazymatch goal with
  | H : _ (read_channel ?nc) _ = inr ?out |- _ => exists nc, out
  | H : _ (ConnectHandler _) _ = inr ?nc |- _ => exists nc, EmptyString
  | _ => exists 0, EmptyString
  end.

(** Lines 43-61, for a configuration that has all the keys they read. *)
Lemma wp_connect_via_jumphost w device jh cr h jt jhh ju jp dh ty u pw :
  jh !! "device_type" = Some jt → jh !! "host" = Some jhh →
  jh !! "username" = Some ju → jh !! "password" = Some jp →
  device !! "host" = Some dh → device !! "type" = Some ty →
  cr !! "username" = Some u → cr !! "password" = Some pw →
  let p := {| device_type := jt; host := jhh; username := ju; password := jp |} in
  wp w (connect_via_jumphost device jh cr) h (λ t r,
    ∃ nc output,
      let calls := relay_calls p nc jhh dh u pw ty output in
      (2 < length t → w (ConnectHandler p) (h ++ take 1 calls) = inr nc) ∧
      (7 < length t → w (read_channel nc) (h ++ take 6 calls) = inr output) ∧
      match r with
      | inr nc' => nc' = nc ∧ t = calls
      | inl e => stopped_in w h calls t e
      end).
Proof.
  intros Hjt Hjh Hju Hjp Hdh Hty Hu Hpw p. unfold connect_via_jumphost.
  wp_steps; flatten_histories; relay_session;
    unfold relay_calls, negotiation;
    repeat match goal with H : any_in _ _ = _ |- _ => rewrite H end;
    (split; [intros Hlen; first [by (simpl in Hlen; lia) | eassumption]|]);
    (split; [intros Hlen; first [by (simpl in Hlen; lia) | eassumption]|]).
  all: try (unfold stopped_in; stopped_somewhere).
  all: by split.
Qed.

Lemma relay_calls_length p nc jhh dh u pw ty output :
  10 ≤ length (relay_calls p nc jhh dh u pw ty output).
Proof.
  unfold relay_calls, negotiation. destruct (any_in _ _); simpl; lia.
Qed.

(** [get_device_info] through a jump host: either the connection stopped
    on the way, or lines 43-61 ran to the end and the commands of lines
    75-86 followed on the same session. *)
Lemma get_device_info_via_jumphost w device dtp jh cr h jt jhh ju jp dh ty u pw :
  jh !! "device_type" = Some jt → jh !! "host" = Some jhh →
  jh !! "username" = Some ju → jh !! "password" = Some jp →
  device !! "host" = Some dh → device !! "type" = Some ty →
  cr !! "username" = Some u → cr !! "password" = Some pw →
  jhh ≠ EmptyString →
  let p := {| device_type := jt; host := jhh; username := ju; password := jp |} in
  let t := (run (get_device_info device dtp jh cr) w h).1 in
  let r := (run (get_device_info device dtp jh cr) w h).2 in
  ∃ nc output,
    let calls := relay_calls p nc jhh dh u pw ty output in
    (2 < length t → w (ConnectHandler p) (h ++ take 1 calls) = inr nc) ∧
    (7 < length t → w (read_channel nc) (h ++ take 6 calls) = inr output) ∧
    ((∃ e, r = inl e ∧ stopped_in w h calls t e) ∨
     (t = calls ++ (run (run_commands device dtp nc) w (h ++ calls)).1 ∧
      r = (run (run_commands device dtp nc) w (h ++ calls)).2)).
Proof.
  intros Hjt Hjh Hju Hjp Hdh Hty Hu Hpw Hne p t r. subst t r.
  wp_of_run (λ (t : list call) (r : exn + list string), ∃ nc output,
    let calls := relay_calls p nc jhh dh u pw ty output in
    (2 < length t → w (ConnectHandler p) (h ++ take 1 calls) = inr nc) ∧
    (7 < length t → w (read_channel nc) (h ++ take 6 calls) = inr output) ∧
    ((∃ e, r = inl e ∧ stopped_in w h calls t e) ∨
     (t = calls ++ (run (run_commands device dtp nc) w (h ++ calls)).1 ∧
      r = (run (run_commands device dtp nc) w (h ++ calls)).2))).
  unfold get_device_info. wp_step.
  replace (truthy jhh) with true by (by destruct jhh).
  apply wp_bind.
  eapply wp_mono; [by eapply (wp_connect_via_jumphost w device jh cr h)|].
  intros tc [e|nc'] (nc & output & H2 & H7 & Hr); exists nc, output; simpl.
  { eauto 6. }
  destruct Hr as [-> ->]. unfold wp.
  split; [intros _; apply H2|split; [intros _; apply H7|by right]];
    (eapply Nat.lt_le_trans; [|apply relay_calls_length]); lia.
Qed.

(** Lines 65-73 when they run to the end on the session [nc]. *)
Definition direct_calls (p : connect_params) (nc : handle) (dh : string)
  : list call :=
  [ ConnectHandler p; find_prompt nc;
    logging INFO ("Connected to device  " +:+ dh) ].

Lemma get_device_info_directly w device dtp jh cr h dh ty u pw :
  jh !! "host" = Some EmptyString →
  device !! "host" = Some dh → device !! "type" = Some ty →
  cr !! "username" = Some u → cr !! "password" = Some pw →
  let p := {| device_type := ty; host := dh; username := u; password := pw |} in
  let t := (run (get_device_info device dtp jh cr) w h).1 in
  let r := (run (get_device_info device dtp jh cr) w h).2 in
  ∃ nc,
    let calls := direct_calls p nc dh in
    (1 < length t → w (ConnectHandler p) h = inr nc) ∧
    ((∃ e, r = inl e ∧ stopped_in w h calls t e) ∨
     (t = calls ++ (run (run_commands device dtp nc) w (h ++ calls)).1 ∧
      r = (run (run_commands device dtp nc) w (h ++ calls)).2)).
Proof.
  intros Hjh Hdh Hty Hu Hpw p t r. subst t r.
  wp_of_run (λ (t : list call) (r : exn + list string), ∃ nc,
    let calls := direct_calls p nc dh in
    (1 < length t → w (ConnectHandler p) h = inr nc) ∧
    ((∃ e, r = inl e ∧ stopped_in w h calls t e) ∨
     (t = calls ++ (run (run_commands device dtp nc) w (h ++ calls)).1 ∧
      r = (run (run_commands device dtp nc) w (h ++ calls)).2))).
  unfold get_device_info. wp_step. simpl. unfold connect_directly.
  wp_steps; flatten_histories.
  - exists 0. split; [simpl; lia|]. left. eexists. split; [done|].
    unfold stopped_in. exists 0. eexists. rewrite app_nil_r. by repeat split.
  - exists a. split; [done|]. left. eexists. split; [done|].
    unfold stopped_in. stopped_at 1.
  - exists a. split; [done|]. right. unfold wp. by rewrite <-!app_assoc.
Qed.

(** ** [before] and [after] *)

Section before_after.
Context (p : call → bool).
Implicit Types t l : list call.

Lemma before_free t : Forall (λ c, p c = false) t → before p t = t.
Proof. induction 1 as [|c t Hc _ IH]; simpl; [done|]. by rewrite Hc, IH. Qed.

Lemma after_free t : Forall (λ c, p c = false) t → after p t = [].
Proof. induction 1 as [|c t Hc _ IH]; simpl; [done|]. by rewrite Hc. Qed.

Lemma before_app t c l :
  Forall (λ c, p c = false) t → p c = true → before p (t ++ c :: l) = t.
Proof.
  intros Ht Hc. induction Ht as [|x t Hx _ IH]; simpl.
  - by rewrite Hc.
  - by rewrite Hx, IH.
Qed.

Lemma after_app t c l :
  Forall (λ c, p c = false) t → p c = true → after p (t ++ c :: l) = l.
Proof.
  intros Ht Hc. induction Ht as [|x t Hx _ IH]; simpl.
  - by rewrite Hc.
  - by rewrite Hx.
Qed.

Lemma before_is_free t : Forall (λ c, p c = false) (before p t).
Proof.
  induction t as [|c t IH]; simpl; [done|].
  destruct (p c) eqn:Hc; by constructor.
Qed.




Lemma after_take k t :
  length (before p t) < k →
  after p (take k t) = take (k - S (length (before p t))) (after p t).
Proof.
  revert k. induction t as [|c t IH]; intros [|k]; simpl; try lia.
  { intros _. by rewrite take_nil. }
  destruct (p c); simpl; intros Hk.
  - by rewrite Nat.sub_0_r.
  - apply IH. lia.
Qed.

Lemma count_take k t : count p (take k t) ≤ count p t.
Proof.
  rewrite <-(take_drop k t) at 2. rewrite count_app. lia.
Qed.
End before_after.


(** ** The profile of the session and the commands *)

Lemma elem_of_free (p : call → bool) t c :
  Forall (λ c, p c = false) t → c ∈ t → p c = false.
Proof. intros Ht Hc. by apply (proj1 (Forall_forall _ _) Ht). Qed.

(** Membership in a list that is written out, case by case. *)
Ltac elem_of_cases H :=
  repeat first
    [ apply elem_of_nil in H; destruct H
    | apply elem_of_cons in H as [H|H]; [try discriminate H|]
    | apply elem_of_app in H as [H|H] ].


(** The calls of [get_device_info] through a jump host are the first [k]
    of the calls of lines 43-61 followed by those of lines 75-86. *)
Lemma via_jumphost_prefix w device dtp jh cr h jt jhh ju jp dh ty u pw :
  jh !! "device_type" = Some jt → jh !! "host" = Some jhh →
  jh !! "username" = Some ju → jh !! "password" = Some jp →
  device !! "host" = Some dh → device !! "type" = Some ty →
  cr !! "username" = Some u → cr !! "password" = Some pw →
  jhh ≠ EmptyString →
  let p := {| device_type := jt; host := jhh; username := ju; password := jp |} in
  let t := (run (get_device_info device dtp jh cr) w h).1 in
  let r := (run (get_device_info device dtp jh cr) w h).2 in
  ∃ nc output k,
    let calls := relay_calls p nc jhh dh u pw ty output in
    let tr := (run (run_commands device dtp nc) w (h ++ calls)).1 in
    t = take k (calls ++ tr) ∧
    (7 < length t → w (read_channel nc) (h ++ take 6 calls) = inr output) ∧
    ((∃ e, r = inl e ∧ stopped_in w h calls t e) ∨
     (t = calls ++ tr ∧
      r = (run (run_commands device dtp nc) w (h ++ calls)).2)).
Proof.
  intros Hjt Hjh Hju Hjp Hdh Hty Hu Hpw Hne p t r.
  destruct (get_device_info_via_jumphost w device dtp jh cr h
              jt jhh ju jp dh ty u pw) as (nc & output & _ & H7 & Hcase);
    [done..|].
  fold p t r in H7, Hcase. exists nc, output.
  destruct Hcase as [(e & Hr & Hstop)|[Ht Hr]].
  - destruct Hstop as (n & c & Hn & Ht & Hc & Hw). exists (S n).
    split; [|split; [done|]].
    + rewrite take_app_le; [done|]. apply lookup_lt_Some in Hn. lia.
    + left. exists e. split; [done|]. by exists n, c.
  - eexists (length _). split; [|split; [done|by right]].
    by rewrite firstn_all.
Qed.

(** The calls of lines 43-54: from the debug entry to the pause before
    the channel is read. *)
Definition relay_opening (p : connect_params) (nc : handle)
    (jhh dh user : string) : list call :=
  [ logging DEBUG "Jumphost parameters are filled so use jumphost to connect to device";
    ConnectHandler p;
    find_prompt nc;
    logging INFO ("Connected to jumphost " +:+ jhh +:+ " for device " +:+ dh);
    write_channel nc ("ssh " +:+ user +:+ "@" +:+ dh +:+ nl);
    sleep 1 ].

(** The world answers every call of [calls], made in this order after
    [h], without raising. *)
Definition answers_all (w : World) (h calls : list call) : Prop :=
  ∀ n c, calls !! n = Some c → is_logging c = false →
    ∃ a, w c (h ++ take n calls) = inr a.

Lemma count_pos (p : call → bool) t c : c ∈ t → p c = true → 1 ≤ count p t.
Proof.
  induction 1 as [c t|c y t _ IH]; intros Hc; rewrite count_cons.
  - rewrite Hc. lia.
  - specialize (IH Hc). lia.
Qed.

(** Through a jump host, when the world hands out the session [nc] and
    answers the calls of lines 51-54 on it, the channel is read, on that
    session and after exactly those calls. *)
Lemma relay_reads w device dtp jh cr h jt jhh ju jp dh ty u pw nc :
  jh !! "device_type" = Some jt → jh !! "host" = Some jhh →
  jh !! "username" = Some ju → jh !! "password" = Some jp →
  device !! "host" = Some dh → device !! "type" = Some ty →
  cr !! "username" = Some u → cr !! "password" = Some pw →
  jhh ≠ EmptyString →
  let p := {| device_type := jt; host := jhh; username := ju; password := jp |} in
  let t := (run (get_device_info device dtp jh cr) w h).1 in
  w (ConnectHandler p) (h ++ take 1 (relay_opening p nc jhh dh u)) = inr nc →
  answers_all w h (relay_opening p nc jhh dh u) →
  read_channel nc ∈ t ∧ before is_read t = relay_opening p nc jhh dh u.
Proof.
  intros Hjt Hjh Hju Hjp Hdh Hty Hu Hpw Hne p t Hnc Hans.
  destruct (get_device_info_via_jumphost w device dtp jh cr h
              jt jhh ju jp dh ty u pw) as (nc0 & output & H2 & H7 & Hcase);
    [done..|].
  fold p t in H2, Hcase. clear H7.
  unfold relay_calls, negotiation, relay_opening in *. simpl in Hnc.
  destruct Hcase as [(e & _ & n & c & Hn & Ht & Hc & Hwc)|[Ht _]].
  - rewrite Ht in H2 |- *. clear Ht.
    destruct n as [|[|n]]; simpl in Hn, Hwc; simplify_eq.
    { rewrite Hnc in Hwc. discriminate. }
    assert (nc0 = nc) as ->.
    { simpl in H2. rewrite H2 in Hnc by lia. by injection Hnc. }
    clear H2.
    destruct n as [|[|[|[|n]]]]; simpl in Hn, Hwc; simplify_eq;
      try (by edestruct (Hans 2) as [a Ha];
             [reflexivity|reflexivity|simpl in Ha; rewrite Ha in Hwc]);
      try (by edestruct (Hans 4) as [a Ha];
             [reflexivity|reflexivity|simpl in Ha; rewrite Ha in Hwc]);
      try (by edestruct (Hans 5) as [a Ha];
             [reflexivity|reflexivity|simpl in Ha; rewrite Ha in Hwc]).
    simpl. split; [|done].
    do 6 apply list_elem_of_further. apply list_elem_of_here.
  - assert (nc0 = nc) as ->.
    { rewrite Ht in H2. simpl in H2. rewrite H2 in Hnc by lia.
      by injection Hnc. }
    rewrite Ht. simpl. split; [|done].
    do 6 apply list_elem_of_further. apply list_elem_of_here.
Qed.



(** ** The password prompt *)

Lemma append_nil b : EmptyString +:+ b = b.
Proof. reflexivity. Qed.

Lemma append_cons a x b : String a x +:+ b = String a (x +:+ b).
Proof. reflexivity. Qed.

(** [String.prefix] is Python's [startswith]. *)
Lemma prefix_spec x s : String.prefix x s = true ↔ ∃ b, s = x +:+ b.
Proof.
  revert s. induction x as [|a x IH]; intros s.
  { split; [by exists s|by destruct s]. }
  setoid_rewrite append_cons. destruct s as [|a' s]; simpl.
  { split; [done|]. by intros [b ?]. }
  destruct (Ascii.ascii_dec a a') as [->|Hne].
  - rewrite IH. split; intros [b Hb]; exists b; congruence.
  - split; [done|]. intros [b Hb]. congruence.
Qed.

Lemma str_in_nil x : str_in x EmptyString = String.prefix x EmptyString.
Proof. simpl. apply orb_false_r. Qed.

Lemma str_in_cons x c s :
  str_in x (String c s) = String.prefix x (String c s) || str_in x s.
Proof. reflexivity. Qed.

(** [str_in x s] holds exactly when [x] occurs somewhere in [s]. *)
Lemma str_in_spec x s : str_in x s = true ↔ ∃ a b, s = a +:+ x +:+ b.
Proof.
  split.
  - induction s as [|c s IH].
    + rewrite str_in_nil, prefix_spec. intros [b ->]. by exists EmptyString, b.
    + rewrite str_in_cons, orb_true_iff, prefix_spec.
      intros [[b ->]|Hs]; [by exists EmptyString, b|].
      destruct (IH Hs) as (a & b & ->). by exists (String c a), b.
  - intros (a & b & ->). induction a as [|c a IH].
    + rewrite append_nil. destruct (x +:+ b) as [|c s] eqn:Hxb.
      * rewrite str_in_nil, prefix_spec. by exists b.
      * rewrite str_in_cons, orb_true_iff. left. apply prefix_spec. by exists b.
    + rewrite append_cons, str_in_cons, IH. apply orb_true_r.
Qed.

Lemma any_in_password_spec output :
  any_in ["password"; "Password"] output = true ↔
  ∃ a b, output = a +:+ "password" +:+ b ∨ output = a +:+ "Password" +:+ b.
Proof.
  unfold any_in. simpl. rewrite orb_false_r, orb_true_iff, !str_in_spec.
  split.
  - intros [(a & b & ->)|(a & b & ->)]; exists a, b; auto.
  - intros (a & b & [->| ->]); [left|right]; by exists a, b.
Qed.

(** C3: through a jump host, when the world hands out the session [nc],
    answers the calls of lines 51-54 on it and shows [output] when the
    channel is read, the channel is read, and: if [output] contains
    [password] or [Password], the next calls are the log entry and the
    [write_channel] of the device password and a newline, and nothing else
    is written afterwards; otherwise nothing is written after the read and
    the next call is [find_prompt].  The test holds exactly when one of the
    two words occurs somewhere in [output].  The same holds of any run in
    which the channel was read. *)
Theorem C3_password_on_prompt w device dtp jh cr h jt jhh ju jp dh ty u pw :
  jh !! "device_type" = Some jt → jh !! "host" = Some jhh →
  jh !! "username" = Some ju → jh !! "password" = Some jp →
  device !! "host" = Some dh → device !! "type" = Some ty →
  cr !! "username" = Some u → cr !! "password" = Some pw →
  jhh ≠ EmptyString →
  let p := {| device_type := jt; host := jhh; username := ju; password := jp |} in
  let t := (run (get_device_info device dtp jh cr) w h).1 in
  let answer nc output :=
    if any_in ["password"; "Password"] output then
      take 2 (after is_read t) =
        [ logging INFO ("Connecting to device and found password prompt for " +:+ dh);
          write_channel nc (pw +:+ nl) ] ∧
      writes (after is_read t) = [pw +:+ nl]
    else
      take 1 (after is_read t) = [find_prompt nc] ∧
      writes (after is_read t) = [] in
  (∀ output,
     any_in ["password"; "Password"] output = true ↔
     ∃ a b, output = a +:+ "password" +:+ b ∨ output = a +:+ "Password" +:+ b) ∧
  (∀ nc output,
     w (ConnectHandler p) (h ++ take 1 (relay_opening p nc jhh dh u)) = inr nc →
     answers_all w h (relay_opening p nc jhh dh u) →
     w (read_channel nc) (h ++ relay_opening p nc jhh dh u) = inr output →
     read_channel nc ∈ t ∧ before is_read t = relay_opening p nc jhh dh u ∧
     answer nc output) ∧
  (∀ nc output,
     read_channel nc ∈ t →
     w (read_channel nc) (h ++ before is_read t) = inr output →
     answer nc output).
Proof.
  intros Hjt Hjh Hju Hjp Hdh Hty Hu Hpw Hne p t answer.
  assert (∀ nc output,
            read_channel nc ∈ t →
            w (read_channel nc) (h ++ before is_read t) = inr output →
            answer nc output) as Hguard.
  { subst answer. cbv beta. clear p.
    intros nc' output' Hin Hw.
      destruct (get_device_info_via_jumphost w device dtp jh cr h
                  jt jhh ju jp dh ty u pw) as (nc & output & _ & H7 & Hcase);
        [done..|].
      fold t in H7, Hcase.
      destruct Hcase as [(e & _ & n & c & Hn & Ht & Hc & Hwc)|[Ht _]].
      - rewrite Ht in Hin, Hw, H7 |- *. clear Ht.
        unfold relay_calls, negotiation in *.
        destruct (any_in ["password"; "Password"] output) eqn:Hany.
        all: do 12 (destruct n as [|n];
          [ simpl in Hn, Hin, Hw, H7, Hwc; simplify_eq; elem_of_cases Hin;
            simplify_eq; try congruence;
            specialize (H7 ltac:(lia)); rewrite H7 in Hw; injection Hw as <-;
            rewrite Hany; by split |]).
        all: by simpl in Hn.
      - rewrite Ht in Hin, Hw, H7 |- *. clear Ht.
        set (tr := (run (run_commands device dtp nc) w _).1) in *.
        assert (Forall (λ c, is_read c = false) tr) as Hread.
        { by apply wp_free, run_commands_free. }
        assert (writes tr = []) as Hwrites.
        { by apply writes_free, wp_free, run_commands_free. }
        clearbody tr. unfold relay_calls, negotiation in *.
        destruct (any_in ["password"; "Password"] output) eqn:Hany.
        all: simpl in Hin, Hw, H7; elem_of_cases Hin; simplify_eq.
        all: try (by apply (elem_of_free _ _ _ Hread) in Hin).
        all: specialize (H7 ltac:(lia)); rewrite H7 in Hw; injection Hw as <-.
        all: rewrite Hany; simpl; rewrite ?writes_cons, Hwrites; by split. }
  split; [apply any_in_password_spec|]. split; [|done].
  intros nc output Hnc Hans Hread.
  destruct (relay_reads w device dtp jh cr h jt jhh ju jp dh ty u pw nc)
    as [Hin Hbefore]; [done..|].
  fold t in Hin, Hbefore. split; [done|]. split; [done|].
  apply Hguard; [done|]. by rewrite Hbefore.
Qed.

Lemma C3_password_on_prompt_witness :
  let prompted :=
    (run (get_device_info Lab.device Lab.cisco_ios Lab.jumphost
            Lab.credentials) (Lab.world "Password: ") []).1 in
  let silent :=
    (run (get_device_info Lab.device Lab.cisco_ios Lab.jumphost
            Lab.credentials) (Lab.world "r1#") []).1 in
  (read_channel 7 ∈ prompted ∧
   take 2 (after is_read prompted) =
     [ logging INFO ("Connecting to device and found password prompt for " +:+ "10.0.0.1");
       write_channel 7 ("secret" +:+ nl) ] ∧
   writes (after is_read prompted) = ["secret" +:+ nl]) ∧
  (read_channel 7 ∈ silent ∧
   take 1 (after is_read silent) = [find_prompt 7] ∧
   writes (after is_read silent) = []).
Proof.
  split.
  - destruct (C3_password_on_prompt (Lab.world "Password: ")
                Lab.device Lab.cisco_ios Lab.jumphost Lab.credentials []
                "linux" "192.0.2.1" "jump" "hop" "10.0.0.1" "cisco_ios"
                "admin" "secret") as (_ & Hrelay & _);
      [first [discriminate | vm_compute; reflexivity]..|].
    destruct (Hrelay 7 "Password: ") as (Hin & _ & Hanswer);
      [reflexivity | intros n c _ _; apply lab_world_answers | reflexivity |].
    split; [exact Hin | exact Hanswer].
  - destruct (C3_password_on_prompt (Lab.world "r1#")
                Lab.device Lab.cisco_ios Lab.jumphost Lab.credentials []
                "linux" "192.0.2.1" "jump" "hop" "10.0.0.1" "cisco_ios"
                "admin" "secret") as (_ & Hrelay & _);
      [first [discriminate | vm_compute; reflexivity]..|].
    destruct (Hrelay 7 "r1#") as (Hin & _ & Hanswer);
      [reflexivity | intros n c _ _; apply lab_world_answers | reflexivity |].
    split; [exact Hin | exact Hanswer].
Defined.

(** ** The command typed into the jump host *)

Lemma relay_read_count p nc jhh dh u pw ty output tr :
  Forall (λ c, is_read c = false) tr →
  count is_read (relay_calls p nc jhh dh u pw ty output ++ tr) = 1.
Proof.
  intros Htr. pose proof (count_free _ _ Htr) as Hcount.
  unfold relay_calls, negotiation. destruct (any_in _ _); simpl.
  all: by rewrite !count_cons, Hcount.
Qed.

(** C8: through a jump host, when the world hands out the session [nc]
    and answers the calls of lines 51-54 on it, the channel is read, once,
    on that session, and the calls before the read are the log entry, the
    session to the jump host, its prompt, the log entry, the text
    [ssh <username>@<host>] and a newline written to the channel, and
    [sleep(1)]; the texts written in the whole run are that line, followed
    by the password and a newline exactly when the text that was read
    contains [password] or [Password].  In any run the channel is read at
    most once, and once when [get_device_info] returns. *)
Theorem C8_relay_command_and_single_read w device dtp jh cr h
    jt jhh ju jp dh ty u pw :
  jh !! "device_type" = Some jt → jh !! "host" = Some jhh →
  jh !! "username" = Some ju → jh !! "password" = Some jp →
  device !! "host" = Some dh → device !! "type" = Some ty →
  cr !! "username" = Some u → cr !! "password" = Some pw →
  jhh ≠ EmptyString →
  let p := {| device_type := jt; host := jhh; username := ju; password := jp |} in
  let t := (run (get_device_info device dtp jh cr) w h).1 in
  let r := (run (get_device_info device dtp jh cr) w h).2 in
  (∀ nc,
     w (ConnectHandler p) (h ++ take 1 (relay_opening p nc jhh dh u)) = inr nc →
     answers_all w h (relay_opening p nc jhh dh u) →
     read_channel nc ∈ t ∧ count is_read t = 1 ∧
     before is_read t = relay_opening p nc jhh dh u ∧
     ∀ output,
       w (read_channel nc) (h ++ relay_opening p nc jhh dh u) = inr output →
       writes t =
         ("ssh " +:+ u +:+ "@" +:+ dh +:+ nl) ::
         (if any_in ["password"; "Password"] output then [pw +:+ nl] else [])) ∧
  count is_read t ≤ 1 ∧
  (∀ out, r = inr out → count is_read t = 1) ∧
  (∀ nc, read_channel nc ∈ t →
     before is_read t =
       [ logging DEBUG "Jumphost parameters are filled so use jumphost to connect to device";
         ConnectHandler {| device_type := jt; host := jhh;
                           username := ju; password := jp |};
         find_prompt nc;
         logging INFO ("Connected to jumphost " +:+ jhh +:+ " for device " +:+ dh);
         write_channel nc ("ssh " +:+ u +:+ "@" +:+ dh +:+ nl);
         sleep 1 ] ∧
     ∀ output,
       w (read_channel nc) (h ++ before is_read t) = inr output →
       writes t =
         ("ssh " +:+ u +:+ "@" +:+ dh +:+ nl) ::
         (if any_in ["password"; "Password"] output then [pw +:+ nl] else [])).
Proof.
  intros Hjt Hjh Hju Hjp Hdh Hty Hu Hpw Hne p t r.
  assert (
    count is_read t ≤ 1 ∧
    (∀ out, r = inr out → count is_read t = 1) ∧
    (∀ nc, read_channel nc ∈ t →
       before is_read t =
         [ logging DEBUG "Jumphost parameters are filled so use jumphost to connect to device";
           ConnectHandler {| device_type := jt; host := jhh;
                             username := ju; password := jp |};
           find_prompt nc;
           logging INFO ("Connected to jumphost " +:+ jhh +:+ " for device " +:+ dh);
           write_channel nc ("ssh " +:+ u +:+ "@" +:+ dh +:+ nl);
           sleep 1 ] ∧
       ∀ output,
         w (read_channel nc) (h ++ before is_read t) = inr output →
         writes t =
           ("ssh " +:+ u +:+ "@" +:+ dh +:+ nl) ::
           (if any_in ["password"; "Password"] output then [pw +:+ nl] else []))) as Hany.
  { clear p.
    destruct (via_jumphost_prefix w device dtp jh cr h
                jt jhh ju jp dh ty u pw) as (nc & output & k & Hk & H7 & Hcase);
      [done..|].
    fold t r in Hk, H7, Hcase.
    set (tr := (run (run_commands device dtp nc) w _).1) in *.
    assert (Forall (λ c, is_read c = false) tr) as Hread.
    { by apply wp_free, run_commands_free. }
    assert (writes tr = []) as Hwrites.
    { by apply writes_free, wp_free, run_commands_free. }
    pose proof (relay_read_count
      {| device_type := jt; host := jhh; username := ju; password := jp |}
      nc jhh dh u pw ty output tr Hread) as Hcount.
    split; [|split].
    { rewrite Hk, <-Hcount. apply count_take. }
    { intros out Hr. destruct Hcase as [(e & He & _)|[-> _]]; [congruence|done]. }
    clear Hk Hcount. intros nc' Hin.
    destruct Hcase as [(e & _ & n & c & Hn & Ht & Hc & Hwc)|[Ht _]].
    - rewrite Ht in Hin, H7 |- *. clear Ht.
      unfold relay_calls, negotiation in *.
      destruct (any_in ["password"; "Password"] output) eqn:Hany.
      all: do 12 (destruct n as [|n];
        [ simpl in Hn, Hin, H7, Hwc; simplify_eq; elem_of_cases Hin;
          simplify_eq; (split; [done|]); intros output' Hw; simpl in Hw;
          try congruence;
          specialize (H7 ltac:(lia)); rewrite H7 in Hw; injection Hw as <-;
          by rewrite Hany |]).
      all: by simpl in Hn.
    - rewrite Ht in Hin, H7 |- *. clear Ht. clearbody tr.
      unfold relay_calls, negotiation in *.
      destruct (any_in ["password"; "Password"] output) eqn:Hany.
      all: simpl in Hin, H7; elem_of_cases Hin; simplify_eq.
      all: try (by apply (elem_of_free _ _ _ Hread) in Hin).
      all: (split; [done|]); intros output' Hw; simpl in Hw.
      all: specialize (H7 ltac:(lia)); rewrite H7 in Hw; injection Hw as <-.
      all: rewrite Hany; simpl; by rewrite ?writes_cons, Hwrites. }
  split; [|done]. intros nc Hnc Hans.
  destruct (relay_reads w device dtp jh cr h jt jhh ju jp dh ty u pw nc)
    as [Hin Hbefore]; [done..|].
  fold t in Hin, Hbefore. destruct Hany as (Hle & _ & Hread).
  destruct (Hread nc Hin) as [_ Hwrites].
  split; [done|]. split; [|split; [done|]].
  - pose proof (count_pos is_read t _ Hin eq_refl). lia.
  - intros output Hw. apply Hwrites. by rewrite Hbefore.
Qed.

Lemma C8_relay_command_and_single_read_witness :
  let w := Lab.world "Password: " in
  let p := {| device_type := "linux"; host := "192.0.2.1";
              username := "jump"; password := "hop" |} in
  let t := (run (get_device_info Lab.device Lab.cisco_ios Lab.jumphost
                   Lab.credentials) w []).1 in
  read_channel 7 ∈ t ∧ count is_read t = 1 ∧
  before is_read t = relay_opening p 7 "192.0.2.1" "10.0.0.1" "admin" ∧
  writes t = [ "ssh " +:+ "admin" +:+ "@" +:+ "10.0.0.1" +:+ nl;
               "secret" +:+ nl ].
Proof.
  intros w p t.
  destruct (C8_relay_command_and_single_read (Lab.world "Password: ")
              Lab.device Lab.cisco_ios Lab.jumphost Lab.credentials []
              "linux" "192.0.2.1" "jump" "hop" "10.0.0.1" "cisco_ios"
              "admin" "secret") as [Hrelay _];
    [first [discriminate | vm_compute; reflexivity]..|].
  destruct (Hrelay 7) as (Hin & Hcount & Hbefore & Hwrites);
    [reflexivity | intros n c _ _; apply lab_world_answers |].
  split; [exact Hin|]. split; [exact Hcount|]. split; [exact Hbefore|].
  exact (Hwrites "Password: " eq_refl).
Defined.

(** ** A jump host that cannot be reached *)

(** C7: with a jump host configured, when the world answers the
    [ConnectHandler] call for the jump host with the exception [e],
    [get_device_info] raises [e] after the debug log entry and that one
    call: no other session is opened and [disconnect] is not called. *)
Theorem C7_jumphost_unreachable w device dtp jh cr h jt jhh ju jp e :
  jh !! "device_type" = Some jt → jh !! "host" = Some jhh →
  jh !! "username" = Some ju → jh !! "password" = Some jp →
  jhh ≠ EmptyString →
  let p := {| device_type := jt; host := jhh; username := ju; password := jp |} in
  let entry := logging DEBUG
    "Jumphost parameters are filled so use jumphost to connect to device" in
  w (ConnectHandler p) (h ++ [entry]) = inl e →
  let t := (run (get_device_info device dtp jh cr) w h).1 in
  let r := (run (get_device_info device dtp jh cr) w h).2 in
  t = [entry; ConnectHandler p] ∧ r = inl e ∧
  connects t = [p] ∧ count is_disconnect t = 0.
Proof.
  intros Hjt Hjh Hju Hjp Hne p entry He t r.
  assert (t = [entry; ConnectHandler p] ∧ r = inl e) as [Ht Hr].
  { subst t r.
    wp_of_run (λ (t : list call) (r : exn + list string),
      t = [entry; ConnectHandler p] ∧ r = inl e).
    unfold get_device_info. wp_step.
    replace (truthy jhh) with true by (by destruct jhh).
    unfold connect_via_jumphost.
    repeat lazymatch goal with
           | |- wp _ (mbind _ (perform (ConnectHandler _))) _ _ => fail
           | _ => wp_step
           end.
    wp_step.
    - split; [done|]. subst p entry. congruence.
    - exfalso. subst p entry. rewrite He in H. discriminate. }
  by rewrite Ht, Hr.
Qed.

Lemma C7_jumphost_unreachable_witness :
  let w := Lab.failing is_connect EmptyString in
  let p := {| device_type := "linux"; host := "192.0.2.1";
              username := "jump"; password := "hop" |} in
  let entry := logging DEBUG
    "Jumphost parameters are filled so use jumphost to connect to device" in
  let t := (run (get_device_info Lab.device Lab.cisco_ios Lab.jumphost
                   Lab.credentials) w []).1 in
  let r := (run (get_device_info Lab.device Lab.cisco_ios Lab.jumphost
                   Lab.credentials) w []).2 in
  t = [entry; ConnectHandler p] ∧ r = inl Lab.timeout ∧
  connects t = [p] ∧ count is_disconnect t = 0.
Proof.
  apply (C7_jumphost_unreachable (Lab.failing is_connect EmptyString)
           Lab.device Lab.cisco_ios Lab.jumphost Lab.credentials []
           "linux" "192.0.2.1" "jump" "hop" Lab.timeout);
    first [discriminate | vm_compute; reflexivity].
Defined.

(** ** The two phases of [get_device_info] *)

(** The calls of lines 75-86 on the session. *)
Definition is_command (c : call) : bool := is_send_command c || is_disconnect c.

(** Lines 42-73 send no command and do not disconnect; when they hand over
    a session, [device['host']] has been read. *)
Lemma wp_connect w device jh cr h (b : bool) :
  wp w (if b then connect_via_jumphost device jh cr
        else connect_directly device cr) h
    (λ t r, Forall (λ c, is_command c = false) t ∧
            match r with
            | inr _ => is_Some (device !! "host")
            | inl _ => True
            end).
Proof.
  destruct b; [unfold connect_via_jumphost|unfold connect_directly].
  all: wp_steps; split; first [by repeat constructor | by eauto].
Qed.

Lemma get_device_info_phases w device dtp jh cr h :
  let t := (run (get_device_info device dtp jh cr) w h).1 in
  let r := (run (get_device_info device dtp jh cr) w h).2 in
  (∃ e, r = inl e ∧ Forall (λ c, is_command c = false) t) ∨
  (∃ tc nc,
     Forall (λ c, is_command c = false) tc ∧ is_Some (device !! "host") ∧
     t = tc ++ (run (run_commands device dtp nc) w (h ++ tc)).1 ∧
     r = (run (run_commands device dtp nc) w (h ++ tc)).2).
Proof.
  intros t r. subst t r.
  wp_of_run (λ (t : list call) (r : exn + list string),
    (∃ e, r = inl e ∧ Forall (λ c, is_command c = false) t) ∨
    (∃ tc nc,
       Forall (λ c, is_command c = false) tc ∧ is_Some (device !! "host") ∧
       t = tc ++ (run (run_commands device dtp nc) w (h ++ tc)).1 ∧
       r = (run (run_commands device dtp nc) w (h ++ tc)).2)).
  unfold get_device_info. wp_step; [by left; eauto|].
  apply wp_bind. eapply wp_mono; [apply wp_connect|].
  intros tc [e|nc] [Hfree Hhost].
  - left. eauto.
  - right. exists tc, nc. by unfold wp.
Qed.

Lemma commands_not_before t :
  Forall (λ c, is_command c = false) t →
  Forall (λ c, is_send_command c = false) t ∧
  Forall (λ c, is_disconnect c = false) t.
Proof.
  intros Ht. split; eapply Forall_impl; try apply Ht.
  all: unfold is_command; intros c Hc; by apply orb_false_elim in Hc as [? ?].
Qed.

(** What [get_device_info] has done when it returns. *)
Lemma get_device_info_returns w device dtp jh cr h out :
  (run (get_device_info device dtp jh cr) w h).2 = inr out →
  ∃ tc nc ic sc dh,
    dtp !! "initial_commands" = Some ic ∧ dtp !! "show_commands" = Some sc ∧
    device !! "host" = Some dh ∧
    Forall (λ c, is_command c = false) tc ∧
    (run (get_device_info device dtp jh cr) w h).1 =
      tc ++ sends nc None ic ++ sends nc (Some false) sc ++
      [disconnect nc; logging INFO ("Disconnected from " +:+ dh)] ∧
    answers_of w (h ++ tc ++ sends nc None ic) nc (Some false) sc out.
Proof.
  intros Hr.
  destruct (get_device_info_phases w device dtp jh cr h)
    as [(e & He & _)|(tc & nc & Htc & [dh Hdh] & Ht & Hr')]; [congruence|].
  rewrite Hr in Hr'.
  pose proof (wp_run_commands w device dtp nc (h ++ tc) dh Hdh) as Hwp.
  unfold wp in Hwp. rewrite <-Hr' in Hwp.
  destruct Hwp as (ic & sc & Hic & Hsc & Htr & Hans).
  exists tc, nc, ic, sc, dh. rewrite Ht, Htr, <-app_assoc in *. done.
Qed.

(** ** The commands and their outputs *)

(** C4: when [get_device_info] returns [out], its calls are those of the
    connection, which contain no [send_command], then one [send_command]
    for every initial command in the order of the list, then one
    [send_command(..., use_textfsm=False)] for every show command in the
    order of the list, then [disconnect] and a log entry; and [out] has one
    entry for every show command, in the same order: the answer of the
    world to that command. *)
Theorem C4_commands_in_order w device dtp jh cr h out :
  (run (get_device_info device dtp jh cr) w h).2 = inr out →
  ∃ tc nc ic sc dh,
    dtp !! "initial_commands" = Some ic ∧ dtp !! "show_commands" = Some sc ∧
    device !! "host" = Some dh ∧
    Forall (λ c, is_send_command c = false) tc ∧
    (run (get_device_info device dtp jh cr) w h).1 =
      tc ++ sends nc None ic ++ sends nc (Some false) sc ++
      [disconnect nc; logging INFO ("Disconnected from " +:+ dh)] ∧
    length out = length sc ∧
    ∀ i cmd, sc !! i = Some cmd →
      ∃ x, out !! i = Some x ∧
           w (send_command nc cmd (Some false))
             (h ++ tc ++ sends nc None ic ++ sends nc (Some false) (take i sc))
           = inr x.
Proof.
  intros Hr.
  destruct (get_device_info_returns w device dtp jh cr h out Hr)
    as (tc & nc & ic & sc & dh & Hic & Hsc & Hdh & Htc & Ht & Hlen & Hans).
  exists tc, nc, ic, sc, dh.
  apply commands_not_before in Htc as [Htc _].
  repeat split; try done.
  intros i cmd Hi. destruct (Hans i cmd Hi) as (x & Hx & Hw).
  exists x. by rewrite <-!app_assoc in Hw.
Qed.

Lemma C4_commands_in_order_witness :
  let w := Lab.world EmptyString in
  ∃ tc nc ic sc dh,
    Lab.cisco_ios !! "initial_commands" = Some ic ∧
    Lab.cisco_ios !! "show_commands" = Some sc ∧
    Lab.device !! "host" = Some dh ∧
    Forall (λ c, is_send_command c = false) tc ∧
    (run (get_device_info Lab.device Lab.cisco_ios Lab.no_jumphost
            Lab.credentials) w []).1 =
      tc ++ sends nc None ic ++ sends nc (Some false) sc ++
      [disconnect nc; logging INFO ("Disconnected from " +:+ dh)] ∧
    length ["<show version>"; "<show inventory>"] = length sc ∧
    ∀ i cmd, sc !! i = Some cmd →
      ∃ x, ["<show version>"; "<show inventory>"] !! i = Some x ∧
           w (send_command nc cmd (Some false))
             ([] ++ tc ++ sends nc None ic ++ sends nc (Some false) (take i sc))
           = inr x.
Proof.
  apply (C4_commands_in_order (Lab.world EmptyString) Lab.device Lab.cisco_ios
           Lab.no_jumphost Lab.credentials []).
  vm_compute. reflexivity.
Defined.

(** ** All or nothing *)

(** C6: [get_device_info] returns a list only with one entry for every
    show command; and when the world answers any of its calls with an
    exception, that call is its last one and the exception is its outcome:
    no list is returned. *)
Theorem C6_all_or_nothing w device dtp jh cr h :
  let t := (run (get_device_info device dtp jh cr) w h).1 in
  let r := (run (get_device_info device dtp jh cr) w h).2 in
  (∀ out, r = inr out →
     ∃ sc, dtp !! "show_commands" = Some sc ∧ length out = length sc) ∧
  (∀ pre c post e,
     t = pre ++ c :: post → is_logging c = false →
     w c (h ++ pre) = inl e →
     post = [] ∧ r = inl e).
Proof.
  intros t r. split.
  - intros out Hr.
    destruct (get_device_info_returns w device dtp jh cr h out Hr)
      as (tc & nc & ic & sc & dh & _ & Hsc & _ & _ & _ & Hlen & _).
    by exists sc.
  - intros pre c post e. apply get_device_info_fail_stop.
Qed.

Lemma C6_all_or_nothing_witness :
  let w := Lab.failing is_send_command EmptyString in
  let p := {| device_type := "cisco_ios"; host := "10.0.0.1";
              username := "admin"; password := "secret" |} in
  let r := (run (get_device_info Lab.device Lab.cisco_ios Lab.no_jumphost
                   Lab.credentials) w []).2 in
  r = inl Lab.timeout.
Proof.
  intros w p r.
  refine (proj2 (proj2 (C6_all_or_nothing w Lab.device Lab.cisco_ios
                          Lab.no_jumphost Lab.credentials [])
                   [ConnectHandler p; find_prompt 7;
                    logging INFO ("Connected to device  " +:+ "10.0.0.1")]
                   (send_command 7 "terminal length 0" None) [] Lab.timeout
                   _ _ _));
    vm_compute; reflexivity.
Defined.

(** ** Closing the session *)

Lemma all_send_no_disconnect t :
  Forall (λ c, is_send_command c = true) t → count is_disconnect t = 0.
Proof.
  intros Ht. apply count_free. eapply Forall_impl; [done|]. by intros [].
Qed.

Lemma sends_no_disconnect nc o l : count is_disconnect (sends nc o l) = 0.
Proof. apply all_send_no_disconnect, sends_all_send. Qed.

(** Lines 75-86 disconnect once when they run to the end; when they raise,
    they have not disconnected, unless [disconnect] was their last call. *)
Lemma wp_run_commands_disconnect w device dtp nc h :
  wp w (run_commands device dtp nc) h (λ t r,
    match r with
    | inr _ => count is_disconnect t = 1
    | inl _ => count is_disconnect t = 0 ∨
               ∃ pre, t = pre ++ [disconnect nc] ∧ count is_disconnect pre = 0
    end).
Proof.
  unfold run_commands.
  apply wp_bind_getitem; [by left|]. intros ic Hic.
  apply wp_bind. eapply wp_mono; [apply wp_for_each_send|].
  intros t1 [e|[]]; simpl.
  { intros (pre & c & -> & Hpre & Hc & _). left.
    apply all_send_no_disconnect, Forall_app. by repeat constructor. }
  intros ->. apply wp_bind_getitem.
  { intros _. left. rewrite app_nil_r. apply sends_no_disconnect. }
  intros sc Hsc. apply wp_bind. eapply wp_mono; [apply wp_for_append_send|].
  intros t2 [e|out]; simpl.
  { intros (pre & c & -> & Hpre & Hc & _). left.
    rewrite count_app, sends_no_disconnect. simpl.
    apply all_send_no_disconnect, Forall_app. by repeat constructor. }
  intros (-> & _).
  assert (count is_disconnect (sends nc None ic ++ sends nc (Some false) sc) = 0)
    as Hcount by (by rewrite count_app, !sends_no_disconnect).
  wp_step.
  - right. exists (sends nc None ic ++ sends nc (Some false) sc).
    by rewrite <-app_assoc.
  - wp_step.
    + right. exists (sends nc None ic ++ sends nc (Some false) sc).
      by rewrite <-app_assoc.
    + wp_steps. rewrite app_assoc, count_app, Hcount. done.
Qed.

(** The session object a call is made on. *)
Definition session_of (c : call) : option handle :=
  match c with
  | find_prompt nc | write_channel nc _ | read_channel nc | redispatch nc _
  | send_command nc _ _ | disconnect nc => Some nc
  | _ => None
  end.

(** A call on a session other than [nc]. *)
Definition other_session (nc : handle) (c : call) : bool :=
  match session_of c with
  | Some nc' => negb (nc' =? nc)
  | None => false
  end.

Lemma other_session_false nc c nc' :
  other_session nc c = false → session_of c = Some nc' → nc' = nc.
Proof.
  unfold other_session. intros Hc Hs. rewrite Hs in Hc.
  apply negb_false_iff in Hc. by apply Nat.eqb_eq.
Qed.

(** The calls on a session object are made on the object that the first
    [ConnectHandler] call returned. *)
Lemma session_calls_on_opened device dtp jh cr w h :
  let t := (run (get_device_info device dtp jh cr) w h).1 in
  ∀ c nc, c ∈ t → session_of c = Some nc →
    ∃ p, head (connects t) = Some p ∧
         w (ConnectHandler p) (h ++ before is_connect t) = inr nc.
Proof.
  intros t. subst t.
  wp_of_run (λ (t : list call) (_ : exn + list string),
    ∀ c nc, c ∈ t → session_of c = Some nc →
      ∃ p, head (connects t) = Some p ∧
           w (ConnectHandler p) (h ++ before is_connect t) = inr nc).
  unfold get_device_info, connect_via_jumphost, connect_directly.
  wp_steps; flatten_histories.
  all: try (eapply wp_mono;
            [apply (wp_free _ _ _ (other_session a)), run_commands_free;
             intros; unfold other_session; simpl; by rewrite ?Nat.eqb_refl|];
            intros t r Hfree; simpl in Hfree).
  all: intros c nc Hin Hs; elem_of_cases Hin; simplify_eq/=.
  all: try (apply (elem_of_free _ _ _ Hfree) in Hin;
            apply (other_session_false _ _ _ Hin) in Hs; subst nc).
  all: eexists; (split; [reflexivity|]); rewrite ?app_nil_r; eassumption.
Qed.

(** C5, as the program has it: [get_device_info] calls [disconnect] at
    most once, and only on the session that its [ConnectHandler] call
    returned.  When it returns, it has called [disconnect] on that session
    once.  When it raises, either [disconnect] was not called, or it was the
    last call; and when the world answers a call other than [disconnect]
    with an exception, [disconnect] is not called in that run: the session,
    if one was opened, is left open. *)
Theorem C5_disconnect_only_on_return w device dtp jh cr h :
  let t := (run (get_device_info device dtp jh cr) w h).1 in
  let r := (run (get_device_info device dtp jh cr) w h).2 in
  let opened nc :=
    ∃ p, head (connects t) = Some p ∧
         w (ConnectHandler p) (h ++ before is_connect t) = inr nc in
  count is_disconnect t ≤ 1 ∧
  (∀ nc, disconnect nc ∈ t → opened nc) ∧
  (∀ out, r = inr out →
     ∃ nc, opened nc ∧ disconnect nc ∈ t ∧ count is_disconnect t = 1) ∧
  (∀ e, r = inl e →
     count is_disconnect t = 0 ∨
     ∃ pre nc, t = pre ++ [disconnect nc] ∧ count is_disconnect pre = 0) ∧
  (∀ pre c post e,
     t = pre ++ c :: post → is_logging c = false → is_disconnect c = false →
     w c (h ++ pre) = inl e →
     count is_disconnect t = 0).
Proof.
  intros t r opened.
  assert (∀ nc, disconnect nc ∈ t → opened nc) as Hopened.
  { intros nc Hin.
    by apply (session_calls_on_opened device dtp jh cr w h (disconnect nc) nc). }
  assert (
  count is_disconnect t ≤ 1 ∧
  (∀ out, r = inr out → count is_disconnect t = 1) ∧
  (∀ e, r = inl e →
     count is_disconnect t = 0 ∨
     ∃ pre nc, t = pre ++ [disconnect nc] ∧ count is_disconnect pre = 0) ∧
  (∀ pre c post e,
     t = pre ++ c :: post → is_logging c = false → is_disconnect c = false →
     w c (h ++ pre) = inl e →
     count is_disconnect t = 0)) as (Hle & Hret & Hexn & Hrefused).
  { clear opened Hopened.
    assert (match r with
            | inr _ => count is_disconnect t = 1
            | inl _ => count is_disconnect t = 0 ∨
                       ∃ pre nc, t = pre ++ [disconnect nc] ∧
                                 count is_disconnect pre = 0
            end) as Hcases.
    { pose proof (get_device_info_phases w device dtp jh cr h) as Hph.
      cbv zeta in Hph. fold t r in Hph.
      destruct Hph as [(e & He & Hfree)|(tc & nc & Htc & _ & Ht & Hr)].
      - rewrite He. left. by apply count_free, commands_not_before.
      - apply commands_not_before in Htc as [_ Htc%count_free].
        pose proof (wp_run_commands_disconnect w device dtp nc (h ++ tc)) as Hwp.
        unfold wp in Hwp. rewrite <-Hr in Hwp.
        rewrite Ht. clear Ht Hr. destruct r as [e|out].
        + destruct Hwp as [H0|(pre & Hpre & H0)].
          * left. rewrite count_app. lia.
          * right. exists (tc ++ pre), nc. rewrite Hpre, count_app.
            split; [by rewrite app_assoc|lia].
        + rewrite count_app. lia. }
    split; [|split; [|split]].
    - destruct r; [|lia]. destruct Hcases as [->|(pre & nc & -> & Hpre)]; [lia|].
      rewrite count_app, Hpre. simpl. done.
    - intros out Hr. by rewrite Hr in Hcases.
    - intros e Hr. by rewrite Hr in Hcases.
    - intros pre c post e Ht Hlog Hc Hw.
      destruct (get_device_info_fail_stop device dtp jh cr w h pre c post e)
        as [-> Hr]; [done..|].
      fold r in Hr. rewrite Hr in Hcases.
      destruct Hcases as [?|(pre' & nc & Ht' & _)]; [done|].
      rewrite Ht in Ht'. apply app_inj_tail in Ht' as [_ ->]. done. }
  split; [done|]. split; [done|]. split; [|by split].
  intros out Hr.
  destruct (get_device_info_returns w device dtp jh cr h out Hr)
    as (tc & nc & ic & sc & dh & _ & _ & _ & _ & Ht & _).
  fold t in Ht.
  assert (disconnect nc ∈ t) as Hin.
  { rewrite Ht, !elem_of_app. do 3 right. apply list_elem_of_here. }
  exists nc. split; [by apply Hopened|]. split; [done|]. by apply (Hret out).
Qed.

(** A run in which a session is opened and never closed: the first
    initial command raises. *)
Lemma C5_counterexample :
  let w := Lab.failing is_send_command EmptyString in
  let p := {| device_type := "cisco_ios"; host := "10.0.0.1";
              username := "admin"; password := "secret" |} in
  let t := (run (get_device_info Lab.device Lab.cisco_ios Lab.no_jumphost
                   Lab.credentials) w []).1 in
  let r := (run (get_device_info Lab.device Lab.cisco_ios Lab.no_jumphost
                   Lab.credentials) w []).2 in
  connects t = [p] ∧ w (ConnectHandler p) [] = inr 7 ∧
  r = inl Lab.timeout ∧ count is_disconnect t ≠ 1.
Proof.
  repeat split; try (vm_compute; reflexivity). vm_compute. discriminate.
Qed.

Lemma C5_disconnect_only_on_return_witness :
  let failing :=
    (run (get_device_info Lab.device Lab.cisco_ios Lab.no_jumphost
            Lab.credentials) (Lab.failing is_send_command EmptyString) []).1 in
  let returning :=
    (run (get_device_info Lab.device Lab.cisco_ios Lab.no_jumphost
            Lab.credentials) (Lab.world EmptyString) []).1 in
  count is_disconnect failing = 0 ∧
  ∃ nc,
    (∃ p, head (connects returning) = Some p ∧
          Lab.world EmptyString (ConnectHandler p)
            ([] ++ before is_connect returning) = inr nc) ∧
    disconnect nc ∈ returning ∧ count is_disconnect returning = 1.
Proof.
  split.
  - refine (proj2 (proj2 (proj2 (proj2 (C5_disconnect_only_on_return
              (Lab.failing is_send_command EmptyString) Lab.device
              Lab.cisco_ios Lab.no_jumphost Lab.credentials []))))
              [ConnectHandler {| device_type := "cisco_ios"; host := "10.0.0.1";
                                 username := "admin"; password := "secret" |};
               find_prompt 7;
               logging INFO ("Connected to device  " +:+ "10.0.0.1")]
              (send_command 7 "terminal length 0" None) [] Lab.timeout
              _ _ _ _);
      vm_compute; reflexivity.
  - destruct (C5_disconnect_only_on_return (Lab.world EmptyString)
                Lab.device Lab.cisco_ios Lab.no_jumphost Lab.credentials [])
      as (_ & _ & Hret & _).
    eapply Hret. vm_compute. reflexivity.
Defined.

(** ** The device loop of [main] *)

Lemma run_with_open_w {A} fn (body : string → M A) w h :
  run (with_open_w fn body) w h =
    match w (open_w fn) h with
    | inl e => ([open_w fn], inl e)
    | inr _ =>
        let tb := (run (body fn) w (h ++ [open_w fn])).1 in
        let rb := (run (body fn) w (h ++ [open_w fn])).2 in
        (open_w fn :: tb ++ [f_close fn],
         match w (f_close fn) ((h ++ [open_w fn]) ++ tb) with
         | inl e => inl e
         | inr _ => rb
         end)
    end.
Proof.
  unfold with_open_w. rewrite run_bind. unfold run at 1 2 3, perform. simpl.
  destruct (w (open_w fn) h) as [e|[]]; [done|]. simpl.
  unfold run, try_finally, perform.
  destruct (body fn w (h ++ [open_w fn])) as [tb rb]. simpl.
  by destruct (w (f_close fn) ((h ++ [open_w fn]) ++ tb)) as [e|[]].
Qed.

(** A loop stops at the first element whose body raises. *)
Lemma for_each_stops {A B} (body : A → M B) done x rest w h t1 t2 e :
  run (for_each done body) w h = (t1, inr tt) →
  run (body x) w (h ++ t1) = (t2, inl e) →
  run (for_each (done ++ x :: rest) body) w h = (t1 ++ t2, inl e).
Proof.
  revert h t1. induction done as [|y done IH]; intros h t1 Hdone Hx; simpl in *.
  - rewrite run_ret in Hdone. simplify_eq. rewrite app_nil_r in Hx.
    by rewrite run_bind, Hx.
  - rewrite run_bind in Hdone |- *.
    destruct (run (body y) w h) as [ty [ey|b]]; [done|].
    destruct (run (for_each done body) w (h ++ ty)) as [td rd] eqn:Hd.
    simpl in Hdone. simplify_eq.
    rewrite (IH (h ++ ty) td); [simpl; by rewrite app_assoc|done|].
    by rewrite <-app_assoc.
Qed.

Section main_body.
Context (device_type_parameters : gmap string type_params)
        (jh cr : dict) (w : World).
Context (d : dict) (ty hn ts : string) (dtp : type_params).
Context (Hty : d !! "type" = Some ty)
        (Hdtp : device_type_parameters !! ty = Some dtp)
        (Hhn : d !! "hostname" = Some hn).

Let fmt : string := "%Y-%m-%d_%H%M%S".
Let fn : string := hn +:+ "_" +:+ ts +:+ ".txt".

(** One iteration of the loop, for a device with the keys it reads, when
    the clock answers [ts] and the file can be opened. *)
Lemma run_main_body h :
  w (strftime fmt) h = inr ts →
  w (open_w fn) (h ++ [strftime fmt]) = inr tt →
  let body :=
    show_command_outputs ← get_device_info d dtp jh cr;
    for_each show_command_outputs (λ output, perform (f_write fn output)) in
  let tb := (run body w (h ++ [strftime fmt; open_w fn])).1 in
  let rb := (run body w (h ++ [strftime fmt; open_w fn])).2 in
  run (main_body device_type_parameters jh cr d) w h =
    ([strftime fmt; open_w fn] ++ tb ++ [f_close fn],
     match w (f_close fn) (h ++ [strftime fmt; open_w fn] ++ tb) with
     | inl e => inl e
     | inr _ => rb
     end).
Proof.
  intros Hts Hopen body tb rb.
  enough (wp w (main_body device_type_parameters jh cr d) h (λ t r,
    t = [strftime fmt; open_w fn] ++ tb ++ [f_close fn] ∧
    r = match w (f_close fn) (h ++ [strftime fmt; open_w fn] ++ tb) with
        | inl e => inl e
        | inr _ => rb
        end)) as [Ht Hr].
  { rewrite <-Ht, <-Hr. by destruct (run _ w h). }
  unfold main_body. do 2 wp_step. fold fmt. wp_step.
  { rewrite Hts in H. discriminate. }
  rewrite Hts in H. injection H as <-. wp_step. fold fn.
  unfold wp. rewrite run_with_open_w, Hopen. fold body. simpl.
  rewrite <-!app_assoc. simpl. by fold tb rb.
Qed.
End main_body.

(** ** The output files *)



(** The body of the [with] statement when [get_device_info] raises. *)
Lemma run_body_raises dtp jh cr d w h (fn : string) tg e :
  run (get_device_info d dtp jh cr) w h = (tg, inl e) →
  run (show_command_outputs ← get_device_info d dtp jh cr;
       for_each show_command_outputs (λ output, perform (f_write fn output)))
      w h = (tg, inl e).
Proof. intros Hg. by rewrite run_bind, Hg. Qed.

(** C9, as the program has it: when [get_device_info] raises for a device
    of the inventory after the devices before it were processed, the file
    of that device is closed and [main] raises: the run ends there, with
    no log entry for the failure and no call for the devices that follow.
    The exception is that of [get_device_info], or the one that closing
    the file raised. *)
Theorem C9_failure_ends_the_run devices dtps jh cr w h
    done d rest t1 ty dtp hn ts tg e :
  devices = done ++ d :: rest →
  run (for_each done (main_body dtps jh cr)) w h = (t1, inr tt) →
  d !! "type" = Some ty → dtps !! ty = Some dtp → d !! "hostname" = Some hn →
  let fmt := "%Y-%m-%d_%H%M%S" in
  let fn := hn +:+ "_" +:+ ts +:+ ".txt" in
  w (strftime fmt) (h ++ t1) = inr ts →
  w (open_w fn) ((h ++ t1) ++ [strftime fmt]) = inr tt →
  run (get_device_info d dtp jh cr) w ((h ++ t1) ++ [strftime fmt; open_w fn])
    = (tg, inl e) →
  ∃ e',
    run (main devices dtps jh cr) w h =
      (t1 ++ [strftime fmt; open_w fn] ++ tg ++ [f_close fn], inl e') ∧
    (e' = e ∨
     w (f_close fn) ((h ++ t1) ++ [strftime fmt; open_w fn] ++ tg) = inl e').
Proof.
  intros -> Hdone Hty Hdtp Hhn fmt fn Hts Hopen Hg.
  pose proof (run_main_body dtps jh cr w d ty hn ts dtp Hty Hdtp Hhn
                (h ++ t1) Hts Hopen) as Hbody.
  cbv zeta in Hbody. fold fmt fn in Hbody.
  rewrite (run_body_raises dtp jh cr d w _ fn tg e Hg) in Hbody.
  simpl in Hbody. unfold main.
  destruct (w (f_close fn) ((h ++ t1) ++ strftime fmt :: open_w fn :: tg))
    as [e'|[]] eqn:Hclose.
  - exists e'. split; [|by right].
    by apply (for_each_stops (main_body dtps jh cr) done d rest w h t1).
  - exists e. split; [|by left].
    by apply (for_each_stops (main_body dtps jh cr) done d rest w h t1).
Qed.

(** An inventory of two devices, the first of which cannot be reached:
    [main] raises, nothing is logged, and the second device is never
    contacted. *)
Lemma C9_counterexample :
  let w := Lab.failing is_connect EmptyString in
  let t := (run (main [Lab.device; Lab.device2] Lab.device_type_parameters
                   Lab.no_jumphost Lab.credentials) w []).1 in
  let r := (run (main [Lab.device; Lab.device2] Lab.device_type_parameters
                   Lab.no_jumphost Lab.credentials) w []).2 in
  r = inl Lab.timeout ∧
  t = [ strftime "%Y-%m-%d_%H%M%S"; open_w "r1_2022-05-01_120000.txt";
        ConnectHandler {| device_type := "cisco_ios"; host := "10.0.0.1";
                          username := "admin"; password := "secret" |};
        f_close "r1_2022-05-01_120000.txt" ] ∧
  count is_logging t = 0 ∧
  connects t = [ {| device_type := "cisco_ios"; host := "10.0.0.1";
                    username := "admin"; password := "secret" |} ].
Proof. repeat split; vm_compute; reflexivity. Qed.

Lemma C9_failure_ends_the_run_witness :
  let w := Lab.failing is_connect EmptyString in
  let p := {| device_type := "cisco_ios"; host := "10.0.0.1";
              username := "admin"; password := "secret" |} in
  let fmt := "%Y-%m-%d_%H%M%S" in
  let fn := "r1" +:+ "_" +:+ "2022-05-01_120000" +:+ ".txt" in
  ∃ e',
    run (main [Lab.device; Lab.device2] Lab.device_type_parameters
           Lab.no_jumphost Lab.credentials) w [] =
      ([] ++ [strftime fmt; open_w fn] ++ [ConnectHandler p] ++ [f_close fn],
       inl e') ∧
    (e' = Lab.timeout ∨
     w (f_close fn) (([] ++ []) ++ [strftime fmt; open_w fn] ++ [ConnectHandler p])
       = inl e').
Proof.
  apply (C9_failure_ends_the_run [Lab.device; Lab.device2]
           Lab.device_type_parameters Lab.no_jumphost Lab.credentials
           (Lab.failing is_connect EmptyString) []
           [] Lab.device [Lab.device2] [] "cisco_ios" Lab.cisco_ios "r1"
           "2022-05-01_120000"
           [ConnectHandler {| device_type := "cisco_ios"; host := "10.0.0.1";
                              username := "admin"; password := "secret" |}]
           Lab.timeout);
    vm_compute; reflexivity.
Defined.




(** * Further properties of [main.py] *)

(** ** What [get_device_info] never calls *)

Definition is_sleep (c : call) : bool :=
  match c with sleep _ => true | _ => false end.
Definition is_strftime (c : call) : bool :=
  match c with strftime _ => true | _ => false end.

(** The calls of the relay: raw channel access, the pause and the
    rebinding of the session. *)
Definition is_relay (c : call) : bool :=
  is_write c || is_read c || is_redispatch c || is_sleep c.

(** X1: without a jump host, [get_device_info] never writes to or reads
    from the channel, never sleeps and never redispatches. *)
Theorem X1_direct_path_no_relay_calls device dtp jh cr w h :
  jh !! "host" = Some EmptyString →
  Forall (λ c, is_relay c = false)
    (run (get_device_info device dtp jh cr) w h).1.
Proof.
  intros Hjh.
  wp_of_run (λ (t : list call) (_ : exn + list string),
    Forall (λ c, is_relay c = false) t).
  unfold get_device_info. wp_step. simpl.
  apply wp_free. unfold connect_directly, run_commands. invariant.
Qed.

Lemma X1_direct_path_no_relay_calls_witness :
  Forall (λ c, is_relay c = false)
    (run (get_device_info Lab.device Lab.cisco_ios Lab.no_jumphost
            Lab.credentials) (Lab.world EmptyString) []).1.
Proof.
  apply X1_direct_path_no_relay_calls. vm_compute. reflexivity.
Defined.

(** X2: [get_device_info] makes no [open], [write], [close] or
    [time.strftime] call, whatever its arguments and whatever the world
    answers: its own calls are session calls, [time.sleep] and calls of
    [logging.debug] and [logging.info].  What the logging module does when
    it is called is not part of the calls of [get_device_info]. *)
Theorem X2_no_file_no_clock device dtp jh cr w h :
  Forall (λ c, is_file c || is_strftime c = false)
    (run (get_device_info device dtp jh cr) w h).1.
Proof.
  apply (wp_free w (get_device_info device dtp jh cr) h
           (λ c, is_file c || is_strftime c)).
  unfold get_device_info, connect_via_jumphost, connect_directly, run_commands.
  invariant.
Qed.

(** ** Missing keys *)

(** X3: with a jump host configured but one of its other parameters
    missing, [get_device_info] raises the [KeyError] of a missing key right
    after the debug log entry: no session is opened. *)
Theorem X3_incomplete_jumphost_opens_nothing device dtp jh cr w h jhh :
  jh !! "host" = Some jhh → jhh ≠ EmptyString →
  jh !! "device_type" = None ∨ jh !! "username" = None ∨
    jh !! "password" = None →
  (run (get_device_info device dtp jh cr) w h).1 =
    [logging DEBUG
       "Jumphost parameters are filled so use jumphost to connect to device"] ∧
  ∃ k, (run (get_device_info device dtp jh cr) w h).2 = inl (KeyError k) ∧
       jh !! k = None.
Proof.
  intros Hjh Hne Hmissing.
  wp_of_run (λ (t : list call) (r : exn + list string),
    t = [logging DEBUG
           "Jumphost parameters are filled so use jumphost to connect to device"] ∧
    ∃ k, r = inl (KeyError k) ∧ jh !! k = None).
  unfold get_device_info. wp_step.
  replace (truthy jhh) with true by (by destruct jhh).
  unfold connect_via_jumphost.
  destruct Hmissing as [Hk|[Hk|Hk]];
    repeat lazymatch goal with
           | |- wp _ (mbind _ (perform (ConnectHandler _))) _ _ => fail
           | _ => wp_step
           end; eauto.
Qed.

Lemma X3_incomplete_jumphost_opens_nothing_witness :
  let jh : dict := <["host" := "192.0.2.1"]> ∅ in
  (run (get_device_info Lab.device Lab.cisco_ios jh Lab.credentials)
     (Lab.world EmptyString) []).1 =
    [logging DEBUG
       "Jumphost parameters are filled so use jumphost to connect to device"] ∧
  ∃ k, (run (get_device_info Lab.device Lab.cisco_ios jh Lab.credentials)
          (Lab.world EmptyString) []).2 = inl (KeyError k) ∧
       jh !! k = None.
Proof.
  apply (X3_incomplete_jumphost_opens_nothing Lab.device Lab.cisco_ios
           (<["host" := "192.0.2.1"]> ∅) Lab.credentials
           (Lab.world EmptyString) [] "192.0.2.1");
    [vm_compute; reflexivity | discriminate | left; vm_compute; reflexivity].
Defined.





(** ** The output file of a device *)

Definition is_open (c : call) : bool :=
  match c with open_w _ => true | _ => false end.
Definition is_close (c : call) : bool :=
  match c with f_close _ => true | _ => false end.

(** The body of the [with] statement opens and closes no file. *)
Lemma with_body_free (p : call → bool) dtp jh cr d (fn : string) w h :
  (∀ c, p c = true → is_open c || is_close c = true) →
  Forall (λ c, p c = false)
    (run (show_command_outputs ← get_device_info d dtp jh cr;
          for_each show_command_outputs (λ output, perform (f_write fn output)))
       w h).1.
Proof.
  intros Hp.
  assert (∀ c, is_open c || is_close c = false → p c = false) as Hp'.
  { intros c Hc. destruct (p c) eqn:Hpc; [|done]. apply Hp in Hpc. congruence. }
  apply wp_free.
  unfold get_device_info, connect_via_jumphost, connect_directly, run_commands.
  repeat first
    [ progress intros
    | apply free_bind | apply free_ret | apply free_getitem
    | apply free_if | apply free_for_each | apply free_for_append
    | apply free_perform; by apply Hp' | apply free_log; by apply Hp' ].
Qed.

(** X5: an iteration of the loop of [main] that has opened its file ends
    by closing it, whatever happens in between; it opens one file and
    closes one file. *)
Theorem X5_opened_file_is_closed dtps jh cr d w h :
  let t := (run (main_body dtps jh cr d) w h).1 in
  ∀ fn,
    open_w fn ∈ t → w (open_w fn) (h ++ before is_open t) = inr tt →
    last t = Some (f_close fn) ∧ count is_open t = 1 ∧ count is_close t = 1.
Proof.
  intros t. subst t.
  wp_of_run (λ (t : list call) (_ : exn + unit), ∀ fn,
    open_w fn ∈ t → w (open_w fn) (h ++ before is_open t) = inr tt →
    last t = Some (f_close fn) ∧ count is_open t = 1 ∧ count is_close t = 1).
  unfold main_body. wp_steps;
    try (by intros fn Hin; elem_of_cases Hin).
  unfold wp. rewrite run_with_open_w.
  set (fn := v1 +:+ "_" +:+ a +:+ ".txt").
  set (tb := (run _ w ((h ++ [strftime "%Y-%m-%d_%H%M%S"]) ++ [open_w fn])).1).
  assert (Forall (λ c, is_open c = false) tb) as Hopen.
  { apply (with_body_free is_open). intros c ->. done. }
  assert (Forall (λ c, is_close c = false) tb) as Hclose.
  { apply (with_body_free is_close). intros c ->. apply orb_true_r. }
  clearbody tb.
  destruct (w (open_w fn) (h ++ [strftime "%Y-%m-%d_%H%M%S"])) as [e|[]] eqn:Hw;
    simpl; intros fn' Hin Hw'.
  - elem_of_cases Hin. simplify_eq. congruence.
  - assert (fn' = fn) as ->.
    { elem_of_cases Hin;
        first [by simplify_eq | by apply (elem_of_free _ _ _ Hopen) in Hin]. }
    split; [|split].
    + change (last ((strftime "%Y-%m-%d_%H%M%S" :: open_w fn :: tb) ++
                    [f_close fn]) = Some (f_close fn)).
      apply last_snoc.
    + rewrite !count_cons, count_app, (count_free _ _ Hopen). done.
    + rewrite !count_cons, count_app, (count_free _ _ Hclose). done.
Qed.

Lemma X5_opened_file_is_closed_witness :
  let w := Lab.failing is_connect EmptyString in
  let t := (run (main_body Lab.device_type_parameters Lab.no_jumphost
                   Lab.credentials Lab.device) w []).1 in
  last t = Some (f_close "r1_2022-05-01_120000.txt") ∧
  count is_open t = 1 ∧ count is_close t = 1.
Proof.
  apply (X5_opened_file_is_closed Lab.device_type_parameters Lab.no_jumphost
           Lab.credentials Lab.device (Lab.failing is_connect EmptyString) []
           "r1_2022-05-01_120000.txt").
  - vm_compute. do 1 apply list_elem_of_further. apply list_elem_of_here.
  - vm_compute. reflexivity.
Defined.

(** The texts [outs] one after the other, nothing in between. *)
Definition concat_outputs (outs : list string) : string :=
  foldr String.append EmptyString outs.

Lemma append_empty_r s : s +:+ EmptyString = s.
Proof. induction s as [|c s IH]; [done|]. by rewrite append_cons, IH. Qed.

Lemma append_assoc s1 s2 s3 : (s1 +:+ s2) +:+ s3 = s1 +:+ s2 +:+ s3.
Proof.
  induction s1 as [|c s1 IH]; [done|]. by rewrite !append_cons, IH.
Qed.

(** A file that is written to.  The text written to an open file is
    buffered: it is what the file holds once [close] has returned.  While
    the file is open after a [write], and when a [write] or the [close]
    raised, what the file holds is not determined. *)
Inductive file_state :=
| Open (written : string)
| Closed (content : string)
| Undetermined.

Definition file_step (w : World) (h : list call)
    (fs : gmap string file_state) (c : call) : gmap string file_state :=
  match c with
  | open_w fn =>
      match w (open_w fn) h with
      | inr _ => <[fn := Open EmptyString]> fs
      | inl _ => fs
      end
  | f_write fn s =>
      match w (f_write fn s) h with
      | inr _ =>
          alter (λ st, match st with Open b => Open (b +:+ s) | _ => st end) fn fs
      | inl _ => alter (λ _, Undetermined) fn fs
      end
  | f_close fn =>
      match w (f_close fn) h with
      | inr _ =>
          alter (λ st, match st with Open b => Closed b | _ => st end) fn fs
      | inl _ => alter (λ _, Undetermined) fn fs
      end
  | _ => fs
  end.

(** The files after the calls [t], made after the history [h]. *)
Fixpoint files_after (w : World) (h : list call)
    (fs : gmap string file_state) (t : list call) : gmap string file_state :=
  match t with
  | [] => fs
  | c :: t' => files_after w (h ++ [c]) (file_step w h fs c) t'
  end.

Lemma files_after_app w h fs t1 t2 :
  files_after w h fs (t1 ++ t2) =
    files_after w (h ++ t1) (files_after w h fs t1) t2.
Proof.
  revert h fs. induction t1 as [|c t1 IH]; intros h fs; simpl.
  - by rewrite app_nil_r.
  - by rewrite IH, <-app_assoc.
Qed.

Lemma files_after_free w h fs t :
  Forall (λ c, is_file c = false) t → files_after w h fs t = fs.
Proof.
  intros Ht. revert h. induction Ht as [|c t Hc _ IH]; intros h; simpl; [done|].
  replace (file_step w h fs c) with fs by (by destruct c). apply IH.
Qed.

(** The loop of lines 126-127 when every [write] succeeds. *)
Lemma run_write_outputs (w : World) h (fn : string) outs :
  (∀ s hh, w (f_write fn s) hh = inr tt) →
  run (for_each outs (λ output, perform (f_write fn output))) w h =
    (map (f_write fn) outs, inr tt).
Proof.
  intros Hw. revert h. induction outs as [|o outs IH]; intros h; simpl.
  - apply run_ret.
  - rewrite run_bind.
    change (run (perform (f_write fn o)) w h)
      with ([f_write fn o], w (f_write fn o) h).
    rewrite Hw. by rewrite IH.
Qed.

Lemma files_after_writes (w : World) h (fn : string) outs b fs :
  (∀ s hh, w (f_write fn s) hh = inr tt) →
  fs !! fn = Some (Open b) →
  files_after w h fs (map (f_write fn) outs) !! fn =
    Some (Open (b +:+ concat_outputs outs)).
Proof.
  intros Hw. revert h b fs.
  induction outs as [|o outs IH]; intros h b fs Hfs; simpl.
  - by rewrite append_empty_r.
  - rewrite Hw. erewrite IH; [by rewrite append_assoc|].
    by rewrite lookup_alter_eq, Hfs.
Qed.

(** X6: an iteration of the loop in which [get_device_info] returns
    [outs], every [write] succeeds and the [close] succeeds: after the
    calls of [get_device_info] come one [write] for every entry of [outs],
    in order, and the [close]; the iteration ends without an exception and
    the file, now closed, holds the entries of [outs] one after the other
    with nothing between them, whatever it held before. *)
Theorem X6_file_holds_the_outputs
    (dtps : gmap string type_params) (jh cr : dict) (w : World) (h : list call)
    (d : dict) (ty : string) (dtp : type_params) (hn ts : string)
    (tg : list call) (outs : list string) :
  d !! "type" = Some ty → dtps !! ty = Some dtp → d !! "hostname" = Some hn →
  let fmt := "%Y-%m-%d_%H%M%S" in
  let fn := hn +:+ "_" +:+ ts +:+ ".txt" in
  w (strftime fmt) h = inr ts →
  w (open_w fn) (h ++ [strftime fmt]) = inr tt →
  run (get_device_info d dtp jh cr) w (h ++ [strftime fmt; open_w fn])
    = (tg, inr outs) →
  (∀ s hh, w (f_write fn s) hh = inr tt) →
  w (f_close fn)
    (h ++ [strftime fmt; open_w fn] ++ tg ++ map (f_write fn) outs) = inr tt →
  let t := [strftime fmt; open_w fn] ++ tg ++ map (f_write fn) outs ++
           [f_close fn] in
  run (main_body dtps jh cr d) w h = (t, inr tt) ∧
  ∀ fs, files_after w h fs t !! fn = Some (Closed (concat_outputs outs)).
Proof.
  intros Hty Hdtp Hhn fmt fn Hts Hopen Hg Hw Hclose t.
  pose proof (run_main_body dtps jh cr w d ty hn ts dtp Hty Hdtp Hhn
                h Hts Hopen) as Hbody.
  cbv zeta in Hbody. fold fmt fn in Hbody.
  rewrite run_bind, Hg in Hbody. cbn [fst snd] in Hbody.
  rewrite run_write_outputs in Hbody by done. cbn [fst snd] in Hbody.
  rewrite Hclose in Hbody. split.
  { rewrite Hbody. subst t. by rewrite <-!app_assoc. }
  intros fs. subst t.
  assert (Forall (λ c, is_file c = false) tg) as Hfree.
  { replace tg with (run (get_device_info d dtp jh cr) w
                       (h ++ [strftime fmt; open_w fn])).1 by (by rewrite Hg).
    apply wp_free, get_device_info_no_file. }
  cbn [app files_after file_step]. rewrite Hopen.
  rewrite files_after_app, (files_after_free _ _ _ tg Hfree).
  rewrite files_after_app. cbn [files_after file_step].
  rewrite <-!app_assoc in *. cbn [app] in *. rewrite Hclose.
  rewrite lookup_alter_eq.
  erewrite files_after_writes; [|done|apply lookup_insert_eq].
  by rewrite append_nil.
Qed.

Lemma X6_file_holds_the_outputs_witness :
  let w := Lab.world EmptyString in
  let fmt := "%Y-%m-%d_%H%M%S" in
  let fn := "r1" +:+ "_" +:+ "2022-05-01_120000" +:+ ".txt" in
  let tg := (run (get_device_info Lab.device Lab.cisco_ios Lab.no_jumphost
                    Lab.credentials) w [strftime fmt; open_w fn]).1 in
  let t := [strftime fmt; open_w fn] ++ tg ++
           map (f_write fn) ["<show version>"; "<show inventory>"] ++
           [f_close fn] in
  run (main_body Lab.device_type_parameters Lab.no_jumphost Lab.credentials
         Lab.device) w [] = (t, inr tt) ∧
  ∀ fs, files_after w [] fs t !! fn =
          Some (Closed (concat_outputs ["<show version>"; "<show inventory>"])).
Proof.
  apply (X6_file_holds_the_outputs Lab.device_type_parameters Lab.no_jumphost
           Lab.credentials (Lab.world EmptyString) [] Lab.device
           "cisco_ios" Lab.cisco_ios "r1" "2022-05-01_120000");
    first [by intros | vm_compute; reflexivity].
Defined.

(** An iteration of the loop that ends without an exception has opened
    one file and closed one file. *)
Lemma wp_main_body_files dtps jh cr d w h :
  wp w (main_body dtps jh cr d) h (λ t r,
    match r with
    | inr _ => count is_open t = 1 ∧ count is_close t = 1
    | inl _ => True
    end).
Proof.
  unfold main_body. wp_steps; try done.
  unfold wp. rewrite run_with_open_w.
  set (fn := v1 +:+ "_" +:+ a +:+ ".txt").
  set (tb := (run _ w ((h ++ [strftime "%Y-%m-%d_%H%M%S"]) ++ [open_w fn])).1).
  set (rb := (run _ w ((h ++ [strftime "%Y-%m-%d_%H%M%S"]) ++ [open_w fn])).2).
  assert (Forall (λ c, is_open c = false) tb) as Hopen.
  { apply (with_body_free is_open). intros c ->. done. }
  assert (Forall (λ c, is_close c = false) tb) as Hclose.
  { apply (with_body_free is_close). intros c ->. apply orb_true_r. }
  clearbody tb rb.
  destruct (w (open_w fn) (h ++ [strftime "%Y-%m-%d_%H%M%S"])) as [e|[]];
    simpl; [done|].
  destruct (w (f_close fn) _) as [e|[]]; [done|]. destruct rb as [e|[]]; [done|].
  by rewrite !count_cons, !count_app, (count_free _ _ Hopen),
    (count_free _ _ Hclose).
Qed.

(** X7: when [main] returns, it has opened as many files as there are
    devices in the inventory, and closed as many. *)
Theorem X7_one_file_per_device devices dtps jh cr w h :
  (run (main devices dtps jh cr) w h).2 = inr tt →
  count is_open (run (main devices dtps jh cr) w h).1 = length devices ∧
  count is_close (run (main devices dtps jh cr) w h).1 = length devices.
Proof.
  unfold main. revert h. induction devices as [|d devices IH]; intros h.
  { done. }
  cbn [for_each]. rewrite run_bind.
  pose proof (wp_main_body_files dtps jh cr d w h) as Hd. unfold wp in Hd.
  destruct (run (main_body dtps jh cr d) w h) as [t1 [e|[]]]; simpl in *;
    [done|].
  intros Hr. destruct (IH (h ++ t1) Hr) as [Ho Hc]. destruct Hd as [Ho1 Hc1].
  rewrite !count_app. lia.
Qed.

Lemma X7_one_file_per_device_witness :
  let t := (run (main [Lab.device; Lab.device2] Lab.device_type_parameters
                   Lab.no_jumphost Lab.credentials)
              (Lab.world EmptyString) []).1 in
  count is_open t = length [Lab.device; Lab.device2] ∧
  count is_close t = length [Lab.device; Lab.device2].
Proof.
  apply X7_one_file_per_device. vm_compute. reflexivity.
Defined.

(** X8: an inventory record without [type], with a type that
    [device_type_parameters] does not have, or without [hostname], makes
    its iteration raise before any file is opened. *)
Theorem X8_malformed_record_no_file dtps jh cr d w h :
  d !! "type" = None ∨
  (∃ ty, d !! "type" = Some ty ∧ dtps !! ty = None) ∨
  d !! "hostname" = None →
  Forall (λ c, is_file c = false) (run (main_body dtps jh cr d) w h).1 ∧
  ∃ e, (run (main_body dtps jh cr d) w h).2 = inl e.
Proof.
  intros Hbad.
  wp_of_run (λ (t : list call) (r : exn + unit),
    Forall (λ c, is_file c = false) t ∧ ∃ e, r = inl e).
  unfold main_body.
  destruct Hbad as [Hk|[(ty & Hty & Hk)|Hk]];
    repeat lazymatch goal with
           | |- wp _ (with_open_w _ _) _ _ => fail
           | _ => wp_step
           end; split; eauto; by repeat constructor.
Qed.

Lemma X8_malformed_record_no_file_witness :
  let d : dict := <["host" := "10.0.0.9"]> (<["type" := "junos"]> ∅) in
  Forall (λ c, is_file c = false)
    (run (main_body Lab.device_type_parameters Lab.no_jumphost Lab.credentials d)
       (Lab.world EmptyString) []).1 ∧
  ∃ e, (run (main_body Lab.device_type_parameters Lab.no_jumphost
               Lab.credentials d) (Lab.world EmptyString) []).2 = inl e.
Proof.
  apply X8_malformed_record_no_file. right. left. exists "junos".
  split; vm_compute; reflexivity.
Defined.

(** ** The commands that are sent *)

Lemma in_sends nc o l k c :
  c ∈ sends nc o (take k l) → ∃ cmd, cmd ∈ l ∧ c = send_command nc cmd o.
Proof.
  unfold sends. intros (cmd & -> & Hcmd)%list_elem_of_fmap.
  exists cmd. split; [|done].
  apply elem_of_take in Hcmd as (i & Hi & _). by eapply list_elem_of_lookup_2.
Qed.

(** A command loop, also one that raised, has sent the first commands of
    its list. *)
Lemma wp_for_each_sent w nc o l h :
  wp w (for_each l (λ command, perform (send_command nc command o))) h
    (λ t _, ∃ k, t = sends nc o (take k l)).
Proof.
  revert h. induction l as [|x l IH]; intros h; simpl.
  { apply wp_ret. by exists 0. }
  wp_step.
  - by exists 1.
  - eapply wp_mono; [apply IH|]. intros t r [k ->]. by exists (S k).
Qed.

Lemma wp_for_append_sent w nc o l acc h :
  wp w (for_append l acc (λ command, perform (send_command nc command o))) h
    (λ t _, ∃ k, t = sends nc o (take k l)).
Proof.
  revert acc h. induction l as [|x l IH]; intros acc h; simpl.
  { apply wp_ret. by exists 0. }
  wp_step.
  - by exists 1.
  - eapply wp_mono; [apply IH|]. intros t r [k ->]. by exists (S k).
Qed.

(** A [send_command] of lines 75-86 sends an initial command with the
    default [use_textfsm], or a show command with [use_textfsm=False]. *)
Definition listed (dtp : type_params) (nc : handle) (c : call) : Prop :=
  (∃ ic cmd, dtp !! "initial_commands" = Some ic ∧ cmd ∈ ic ∧
             c = send_command nc cmd None) ∨
  (∃ sc cmd, dtp !! "show_commands" = Some sc ∧ cmd ∈ sc ∧
             c = send_command nc cmd (Some false)).

Lemma wp_run_commands_sent w device dtp nc h :
  wp w (run_commands device dtp nc) h (λ t _,
    ∀ c, c ∈ t → is_send_command c = true → listed dtp nc c).
Proof.
  unfold run_commands.
  apply wp_bind_getitem; [by intros _ c ?%elem_of_nil|]. intros ic Hic.
  assert (∀ k c, c ∈ sends nc None (take k ic) → listed dtp nc c) as Hinit.
  { intros k c (cmd & Hcmd & ->)%in_sends. left. by exists ic, cmd. }
  apply wp_bind. eapply wp_mono; [apply wp_for_each_sent|].
  intros t1 [e|[]] [k ->]; [by eauto|].
  apply wp_bind_getitem.
  { intros _ c Hc _. rewrite app_nil_r in Hc. by eauto. }
  intros sc Hsc.
  assert (∀ k c, c ∈ sends nc (Some false) (take k sc) → listed dtp nc c)
    as Hshow.
  { intros k' c (cmd & Hcmd & ->)%in_sends. right. by exists sc, cmd. }
  apply wp_bind. eapply wp_mono; [apply wp_for_append_sent|].
  intros t2 [e|out] [k' ->].
  { intros c [Hc|Hc]%elem_of_app _; by eauto. }
  wp_steps; intros c Hc Hsend;
    repeat (apply elem_of_app in Hc as [Hc|Hc]); eauto;
    elem_of_cases Hc; by simplify_eq.
Qed.

(** X9: every [send_command] that [get_device_info] makes, in any run,
    sends a command of the [initial_commands] of the device type with the
    default [use_textfsm], or a command of its [show_commands] with
    [use_textfsm=False]. *)
Theorem X9_only_listed_commands device dtp jh cr w h :
  ∀ nc cmd o,
    send_command nc cmd o ∈ (run (get_device_info device dtp jh cr) w h).1 →
    (o = None ∧
     ∃ ic, dtp !! "initial_commands" = Some ic ∧ cmd ∈ ic) ∨
    (o = Some false ∧
     ∃ sc, dtp !! "show_commands" = Some sc ∧ cmd ∈ sc).
Proof.
  intros nc cmd o Hin.
  destruct (get_device_info_phases w device dtp jh cr h)
    as [(e & _ & Hfree)|(tc & nc' & Htc & _ & Ht & _)].
  { by apply (elem_of_free _ _ _ Hfree) in Hin. }
  rewrite Ht in Hin. apply elem_of_app in Hin as [Hin|Hin].
  { by apply (elem_of_free _ _ _ Htc) in Hin. }
  destruct (wp_run_commands_sent w device dtp nc' (h ++ tc) _ Hin eq_refl)
    as [(ic & cmd' & Hic & Hcmd & [= -> -> ->])
       |(sc & cmd' & Hsc & Hcmd & [= -> -> ->])]; eauto.
Qed.

Lemma X9_only_listed_commands_witness :
  (@None bool = None ∧
   ∃ ic, Lab.cisco_ios !! "initial_commands" = Some ic ∧
         "terminal length 0" ∈ ic) ∨
  (None = Some false ∧
   ∃ sc, Lab.cisco_ios !! "show_commands" = Some sc ∧ "terminal length 0" ∈ sc).
Proof.
  apply (X9_only_listed_commands Lab.device Lab.cisco_ios Lab.no_jumphost
           Lab.credentials (Lab.world EmptyString) [] 7).
  vm_compute. do 3 apply list_elem_of_further. apply list_elem_of_here.
Defined.

(** ** One session *)

(** X10: every call that [get_device_info] makes on a session object is
    made on the object that its first, and only, [ConnectHandler] call
    returned. *)
Theorem X10_one_session_object device dtp jh cr w h :
  let t := (run (get_device_info device dtp jh cr) w h).1 in
  ∀ c nc, c ∈ t → session_of c = Some nc →
    ∃ p, head (connects t) = Some p ∧
         w (ConnectHandler p) (h ++ before is_connect t) = inr nc.
Proof.
  intros t. subst t.
  wp_of_run (λ (t : list call) (_ : exn + list string),
    ∀ c nc, c ∈ t → session_of c = Some nc →
      ∃ p, head (connects t) = Some p ∧
           w (ConnectHandler p) (h ++ before is_connect t) = inr nc).
  unfold get_device_info, connect_via_jumphost, connect_directly.
  wp_steps; flatten_histories.
  all: try (eapply wp_mono;
            [apply (wp_free _ _ _ (other_session a)), run_commands_free;
             intros; unfold other_session; simpl; by rewrite ?Nat.eqb_refl|];
            intros t r Hfree; simpl in Hfree).
  all: intros c nc Hin Hs; elem_of_cases Hin; simplify_eq/=.
  all: try (apply (elem_of_free _ _ _ Hfree) in Hin;
            apply (other_session_false _ _ _ Hin) in Hs; subst nc).
  all: eexists; (split; [reflexivity|]); rewrite ?app_nil_r; eassumption.
Qed.

Lemma X10_one_session_object_witness :
  let w := Lab.world "Password: " in
  let t := (run (get_device_info Lab.device Lab.cisco_ios Lab.jumphost
                   Lab.credentials) w []).1 in
  ∃ p, head (connects t) = Some p ∧
       w (ConnectHandler p) ([] ++ before is_connect t) = inr 7.
Proof.
  apply (X10_one_session_object Lab.device Lab.cisco_ios Lab.jumphost
           Lab.credentials (Lab.world "Password: ") []
           (redispatch 7 "cisco_ios") 7); [|reflexivity].
  vm_compute. do 10 apply list_elem_of_further. apply list_elem_of_here.
Defined.

(** ** A world that answers every call *)

(** Lines 75-86 with both lists and [device['host']] present, in a world
    that answers every call: they run to the end. *)
Lemma run_commands_returns w device dtp nc h ic sc dh :
  dtp !! "initial_commands" = Some ic → dtp !! "show_commands" = Some sc →
  device !! "host" = Some dh →
  (∀ c hh, ∃ a, w c hh = inr a) →
  ∃ out,
    run (run_commands device dtp nc) w h =
      (sends nc None ic ++ sends nc (Some false) sc ++
       [disconnect nc; logging INFO ("Disconnected from " +:+ dh)], inr out) ∧
    length out = length sc.
Proof.
  intros Hic Hsc Hdh Hw.
  assert (∀ h' t e, ¬ stopped_at_send w h' t e) as Hsend.
  { intros h' t e (pre & c & _ & _ & _ & Hc).
    destruct (Hw c (h' ++ pre)) as [a Ha]. rewrite Ha in Hc. discriminate. }
  assert (wp w (run_commands device dtp nc) h (λ _ r, ∃ out, r = inr out))
    as Hret.
  { unfold run_commands. wp_step.
    apply wp_bind. eapply wp_mono; [apply wp_for_each_send|].
    intros t1 [e|[]]; simpl; [by intros ?%Hsend|]. intros _.
    wp_step. apply wp_bind. eapply wp_mono; [apply wp_for_append_send|].
    intros t2 [e|out]; simpl; [by intros ?%Hsend|]. intros _.
    wp_step.
    - lazymatch goal with
      | H : w ?c ?hh = inl _ |- _ =>
          destruct (Hw c hh) as [a Ha]; rewrite Ha in H; discriminate
      end.
    - wp_steps. by eauto. }
  pose proof (wp_run_commands w device dtp nc h dh Hdh) as Hwp.
  unfold wp in Hret, Hwp. destruct Hret as [out Hout].
  destruct (run (run_commands device dtp nc) w h) as [t r]; simpl in *.
  subst r. destruct Hwp as (ic' & sc' & Hic' & Hsc' & -> & Hlen & _).
  simplify_eq. by exists out.
Qed.

Lemma stopped_in_answered w h calls t e :
  (∀ c hh, ∃ a, w c hh = inr a) → ¬ stopped_in w h calls t e.
Proof.
  intros Hw (n & c & _ & _ & _ & Hc).
  destruct (Hw c (h ++ take n calls)) as [a Ha]. rewrite Ha in Hc. discriminate.
Qed.

(** X11: without a jump host, with every key in place and in a world that
    answers every call, [get_device_info] returns: it connects, sends the
    initial commands and the show commands, disconnects, and its list has
    one entry for every show command. *)
Theorem X11_direct_path_returns device dtp jh cr w h dh ty u pw ic sc :
  jh !! "host" = Some EmptyString →
  device !! "host" = Some dh → device !! "type" = Some ty →
  cr !! "username" = Some u → cr !! "password" = Some pw →
  dtp !! "initial_commands" = Some ic → dtp !! "show_commands" = Some sc →
  (∀ c hh, ∃ a, w c hh = inr a) →
  let p := {| device_type := ty; host := dh; username := u; password := pw |} in
  ∃ nc out,
    run (get_device_info device dtp jh cr) w h =
      (direct_calls p nc dh ++ sends nc None ic ++ sends nc (Some false) sc ++
       [disconnect nc; logging INFO ("Disconnected from " +:+ dh)], inr out) ∧
    length out = length sc.
Proof.
  intros Hjh Hdh Hty Hu Hpw Hic Hsc Hw p.
  destruct (get_device_info_directly w device dtp jh cr h dh ty u pw)
    as (nc & _ & [(e & _ & Hstop)|[Ht Hr]]); [done..| |].
  { by apply stopped_in_answered in Hstop. }
  destruct (run_commands_returns w device dtp nc (h ++ direct_calls p nc dh)
              ic sc dh) as (out & Hrun & Hlen); [done..|].
  exists nc, out. split; [|done]. fold p in Ht, Hr. rewrite Hrun in Ht, Hr.
  destruct (run (get_device_info device dtp jh cr) w h) as [t r].
  simpl in *. by subst.
Qed.

Lemma X11_direct_path_returns_witness :
  let p := {| device_type := "cisco_ios"; host := "10.0.0.1";
              username := "admin"; password := "secret" |} in
  ∃ nc out,
    run (get_device_info Lab.device Lab.cisco_ios Lab.no_jumphost
           Lab.credentials) (Lab.world EmptyString) [] =
      (direct_calls p nc "10.0.0.1" ++
       sends nc None ["terminal length 0"] ++
       sends nc (Some false) ["show version"; "show inventory"] ++
       [disconnect nc; logging INFO ("Disconnected from " +:+ "10.0.0.1")],
       inr out) ∧
    length out = length ["show version"; "show inventory"].
Proof.
  apply (X11_direct_path_returns Lab.device Lab.cisco_ios Lab.no_jumphost
           Lab.credentials (Lab.world EmptyString) []
           "10.0.0.1" "cisco_ios" "admin" "secret");
    first [apply lab_world_answers | vm_compute; reflexivity].
Defined.

(** X12: through a jump host, with every key in place and in a world that
    answers every call, [get_device_info] returns: the whole relay runs,
    with the password step exactly when the text read from the channel
    asks for it, then the commands, and the session is disconnected. *)
Theorem X12_relayed_path_returns device dtp jh cr (w : World) h
    jt jhh ju jp dh ty u pw ic sc :
  jh !! "device_type" = Some jt → jh !! "host" = Some jhh →
  jh !! "username" = Some ju → jh !! "password" = Some jp →
  device !! "host" = Some dh → device !! "type" = Some ty →
  cr !! "username" = Some u → cr !! "password" = Some pw →
  jhh ≠ EmptyString →
  dtp !! "initial_commands" = Some ic → dtp !! "show_commands" = Some sc →
  (∀ c hh, ∃ a, w c hh = inr a) →
  let p := {| device_type := jt; host := jhh; username := ju; password := jp |} in
  ∃ nc output out,
    let calls := relay_calls p nc jhh dh u pw ty output in
    w (read_channel nc) (h ++ take 6 calls) = inr output ∧
    run (get_device_info device dtp jh cr) w h =
      (calls ++ sends nc None ic ++ sends nc (Some false) sc ++
       [disconnect nc; logging INFO ("Disconnected from " +:+ dh)], inr out) ∧
    length out = length sc.
Proof.
  intros Hjt Hjh Hju Hjp Hdh Hty Hu Hpw Hne Hic Hsc Hw p.
  destruct (get_device_info_via_jumphost w device dtp jh cr h
              jt jhh ju jp dh ty u pw)
    as (nc & output & _ & H7 & [(e & _ & Hstop)|[Ht Hr]]); [done..| |].
  { by apply stopped_in_answered in Hstop. }
  fold p in H7, Ht, Hr.
  destruct (run_commands_returns w device dtp nc
              (h ++ relay_calls p nc jhh dh u pw ty output) ic sc dh)
    as (out & Hrun & Hlen); [done..|].
  exists nc, output, out. rewrite Hrun in Ht, Hr. cbn [fst snd] in Ht, Hr.
  split; [|split; [|done]].
  - apply H7. rewrite Ht, length_app.
    pose proof (relay_calls_length p nc jhh dh u pw ty output). lia.
  - destruct (run (get_device_info device dtp jh cr) w h) as [t r].
    simpl in *. by subst.
Qed.

Lemma X12_relayed_path_returns_witness :
  let w := Lab.world "Password: " in
  let p := {| device_type := "linux"; host := "192.0.2.1";
              username := "jump"; password := "hop" |} in
  ∃ nc output out,
    let calls := relay_calls p nc "192.0.2.1" "10.0.0.1" "admin" "secret"
                   "cisco_ios" output in
    w (read_channel nc) ([] ++ take 6 calls) = inr output ∧
    run (get_device_info Lab.device Lab.cisco_ios Lab.jumphost
           Lab.credentials) w [] =
      (calls ++ sends nc None ["terminal length 0"] ++
       sends nc (Some false) ["show version"; "show inventory"] ++
       [disconnect nc; logging INFO ("Disconnected from " +:+ "10.0.0.1")],
       inr out) ∧
    length out = length ["show version"; "show inventory"].
Proof.
  apply (X12_relayed_path_returns Lab.device Lab.cisco_ios Lab.jumphost
           Lab.credentials (Lab.world "Password: ") []
           "linux" "192.0.2.1" "jump" "hop" "10.0.0.1" "cisco_ios"
           "admin" "secret");
    first [apply lab_world_answers | discriminate | vm_compute; reflexivity].
Defined.

(** ** The log level of [main] *)

(** Lines 97-103: the level handed to [logging.basicConfig]. *)
Module Config.
Inductive level := DEBUG | INFO | WARNING | ERROR.

Definition log_level_info : gmap string level :=
  <["logging.ERROR" := ERROR]> (<["logging.WARNING" := WARNING]>
    (<["logging.INFO" := INFO]> (<["logging.DEBUG" := DEBUG]> ∅))).

(** [log_level_info.get(loglevel, logging.ERROR)] *)
Definition basicConfig_level (loglevel : string) : level :=
  default ERROR (log_level_info !! loglevel).
End Config.

(** X13: the level of the log is [ERROR] for every [loglevel] text of the
    configuration other than the three texts [logging.DEBUG],
    [logging.INFO] and [logging.WARNING], which select their own level;
    the comparison is exact, so that a text in other letters or without
    the prefix selects [ERROR]. *)
Theorem X13_log_level_default loglevel :
  (loglevel = "logging.DEBUG" ∧ Config.basicConfig_level loglevel = Config.DEBUG) ∨
  (loglevel = "logging.INFO" ∧ Config.basicConfig_level loglevel = Config.INFO) ∨
  (loglevel = "logging.WARNING" ∧
   Config.basicConfig_level loglevel = Config.WARNING) ∨
  (loglevel ≠ "logging.DEBUG" ∧ loglevel ≠ "logging.INFO" ∧
   loglevel ≠ "logging.WARNING" ∧
   Config.basicConfig_level loglevel = Config.ERROR).
Proof.
  unfold Config.basicConfig_level, Config.log_level_info.
  destruct (decide (loglevel = "logging.DEBUG")) as [->|Hd]; [by left|].
  destruct (decide (loglevel = "logging.INFO")) as [->|Hi]; [by right; left|].
  destruct (decide (loglevel = "logging.WARNING")) as [->|Hw];
    [by right; right; left|].
  right. right. right. repeat split; try done.
  destruct (decide (loglevel = "logging.ERROR")) as [->|He]; [done|].
  by rewrite !lookup_insert_ne, lookup_empty by done.
Qed.

(** ** An inventory record without [host] *)

(** X14: without a jump host, for an inventory record that has [type] and
    [hostname] but no [host], the iteration opens the file, raises the
    [KeyError] before any session is opened, and closes the file: the file
    is left on the disk, empty. *)
Theorem X14_record_without_host
    (dtps : gmap string type_params) (jh cr : dict) (w : World) (h : list call)
    (d : dict) (ty : string) (dtp : type_params) (hn ts : string) :
  d !! "type" = Some ty → dtps !! ty = Some dtp → d !! "hostname" = Some hn →
  d !! "host" = None → jh !! "host" = Some EmptyString →
  let fmt := "%Y-%m-%d_%H%M%S" in
  let fn := hn +:+ "_" +:+ ts +:+ ".txt" in
  w (strftime fmt) h = inr ts →
  w (open_w fn) (h ++ [strftime fmt]) = inr tt →
  w (f_close fn) (h ++ [strftime fmt; open_w fn]) = inr tt →
  run (main_body dtps jh cr d) w h =
    ([strftime fmt; open_w fn; f_close fn], inl (KeyError "host")) ∧
  ∀ disk,
    disk_after w h disk [strftime fmt; open_w fn; f_close fn] !! fn =
      Some EmptyString.
Proof.
  intros Hty Hdtp Hhn Hhost Hjh fmt fn Hts Hopen Hclose.
  assert (run (get_device_info d dtp jh cr) w (h ++ [strftime fmt; open_w fn])
          = ([], inl (KeyError "host"))) as Hg.
  { enough (wp w (get_device_info d dtp jh cr) (h ++ [strftime fmt; open_w fn])
              (λ t r, t = [] ∧ r = inl (KeyError "host"))) as Hwp.
    { unfold wp in Hwp. destruct (run _ w _) as [t r]. simpl in Hwp.
      by destruct Hwp as [-> ->]. }
    unfold get_device_info. wp_step. simpl. unfold connect_directly.
    wp_steps. done. }
  pose proof (run_main_body dtps jh cr w d ty hn ts dtp Hty Hdtp Hhn
                h Hts Hopen) as Hbody.
  cbv zeta in Hbody. fold fmt fn in Hbody.
  rewrite (run_body_raises dtp jh cr d w _ fn [] _ Hg) in Hbody.
  simpl in Hbody. rewrite Hclose in Hbody. split; [done|].
  intros disk. simpl. rewrite Hopen. apply lookup_insert_eq.
Qed.

Lemma X14_record_without_host_witness :
  let d : dict := <["hostname" := "r3"]> (<["type" := "cisco_ios"]> ∅) in
  let w := Lab.world EmptyString in
  let fmt := "%Y-%m-%d_%H%M%S" in
  let fn := "r3" +:+ "_" +:+ "2022-05-01_120000" +:+ ".txt" in
  run (main_body Lab.device_type_parameters Lab.no_jumphost Lab.credentials d)
    w [] = ([strftime fmt; open_w fn; f_close fn], inl (KeyError "host")) ∧
  ∀ disk,
    disk_after w [] disk [strftime fmt; open_w fn; f_close fn] !! fn =
      Some EmptyString.
Proof.
  apply (X14_record_without_host Lab.device_type_parameters Lab.no_jumphost
           Lab.credentials (Lab.world EmptyString) []
           (<["hostname" := "r3"]> (<["type" := "cisco_ios"]> ∅))
           "cisco_ios" Lab.cisco_ios "r3" "2022-05-01_120000");
    vm_compute; reflexivity.
Defined.
